(** * Embassy Trade AI: the indicator engine, the price feed loop, the
      decision handling of the signal cycle and the broker boundary

    A shallow embedding of

    - [src/trading/ai_agent.py]      (class [AIAgent]),
    - [src/trading_signals.py]       (class [ProfessionalTradingStrategy],
                                      [generate_signals], [main]),
    - [src/trading/alpaca_client.py] (class [AlpacaClient]),

    followed by the properties the specification states about them.

    Python objects are records, methods are computations in a state and
    exception monad over the record of [self], and network peers are
    scripts of answers.  Python's [float] is kept abstract behind the class
    [Arith]; the general properties hold for every instance of it.  Its
    instance for the program as it runs is IEEE binary64 ([PrimFloat]); the
    instance over exact rationals ([Q]) replays the worked scenario of the
    specification in the specification's own numbers. *)

From stdpp Require Import gmap strings.
From Stdlib Require Import ZArith QArith Qabs Qround List String Ascii Lia Bool.
From Stdlib Require Import DecimalString Floats.
Import ListNotations.


(** ** Python values and control *)

Module Py.

(** An exception instance: the name of its class and its message.  Only
    classes below [Exception] occur; what [except Exception] lets through
    (KeyboardInterrupt, SystemExit) is not a value of this type. *)
Record exn : Type := Exn { exn_class : string; exn_msg : string }.

Inductive outcome (A : Type) : Type :=
| Returned (a : A)
| Raised (e : exn).
Arguments Returned {A} a.
Arguments Raised {A} e.

(** A method body: it reads and writes the object [S] it is bound to and
    either returns or raises.  Writes made before a raise stay. *)
Definition M (S A : Type) : Type := S -> outcome A * S.

Definition ret {S A} (a : A) : M S A := fun s => (Returned a, s).

Definition bind {S A B} (m : M S A) (k : A -> M S B) : M S B :=
  fun s =>
    match m s with
    | (Returned a, s') => k a s'
    | (Raised e, s') => (Raised e, s')
    end.

Definition raise {S A} (e : exn) : M S A := fun s => (Raised e, s).

(** Attribute read [self.f] and in-place update of [self]. *)
Definition gets {S A} (f : S -> A) : M S A := fun s => (Returned (f s), s).
Definition modify {S} (f : S -> S) : M S unit := fun s => (Returned tt, f s).

(** [lift_outcome] runs a computation that has no state of its own. *)
Definition lift_outcome {S A} (o : outcome A) : M S A := fun s => (o, s).

(** [try: body / except Exception as e: handler e]. *)
Definition try_except {S A} (body : M S A) (handler : exn -> M S A) : M S A :=
  fun s =>
    match body s with
    | (Returned a, s') => (Returned a, s')
    | (Raised e, s') => handler e s'
    end.

(** Run a method of a component object held in a field of [self]. *)
Definition zoom {S T A} (get : S -> T) (set : T -> S -> S) (m : M T A) : M S A :=
  fun s => let (r, t') := m (get s) in (r, set t' s).

(** [len(l)] *)
Definition len {A} (l : list A) : Z := Z.of_nat (List.length l).

(** [l[i]], negative [i] counting from the end. *)
Definition getitem {A} (l : list A) (i : Z) : outcome A :=
  let j := if (i <? 0)%Z then (i + len l)%Z else i in
  if ((0 <=? j) && (j <? len l))%Z
  then match nth_error l (Z.to_nat j) with
       | Some x => Returned x
       | None => Raised (Exn "IndexError" "list index out of range")
       end
  else Raised (Exn "IndexError" "list index out of range").

(** [l[start:]]: a negative start counts from the end and is clipped at
    the front, a start past the end gives the empty list. *)
Definition slice_from {A} (l : list A) (start : Z) : list A :=
  let j := if (start <? 0)%Z then Z.max 0 (start + len l) else Z.min start (len l) in
  skipn (Z.to_nat j) l.

(** [max(a, b)] and [min(a, b)] of the builtins, for a given [<]: the
    first argument is kept unless the second is strictly better. *)
Definition max {A} (lt : A -> A -> bool) (a b : A) : A := if lt a b then b else a.
Definition min {A} (lt : A -> A -> bool) (a b : A) : A := if lt b a then b else a.

End Py.

Import Py.

Declare Scope py_scope.
Delimit Scope py_scope with py.
Notation "'let!' x ':=' m 'in' k" := (Py.bind m (fun x => k))
  (at level 10, x name, m at level 100, k at level 200) : py_scope.
Notation "'do!' m 'in' k" := (Py.bind m (fun _ => k))
  (at level 10, m at level 100, k at level 200) : py_scope.

(** ** Floating-point arithmetic as an interface *)

(** What the program does with a [float].  [lt a b] is [a < b];
    [a > b] is written [lt b a].  [of_int] is the conversion [float(n)] of
    an [int], [None] where it raises OverflowError; [of_len] is the same
    conversion for the item count by which [np.mean] divides.  [fmt_2f] is
    the format [{x:.2f}].  The fields [f0_0] to [f1_05] are the literals
    [0.0], [0.5], [0.7], [0.95] and [1.05] of the source. *)
Class Arith (num : Type) : Type := {
  add : num -> num -> num;
  sub : num -> num -> num;
  mul : num -> num -> num;
  div : num -> num -> num;
  abs : num -> num;
  lt : num -> num -> bool;
  of_int : Z -> option num;
  of_len : Z -> num;
  fmt_2f : num -> string;
  f0_0 : num;
  f0_5 : num;
  f0_7 : num;
  f0_95 : num;
  f1_05 : num
}.

Section Numpy.
Context {num : Type} `{Arith num}.

(** [np.sum] over a one-dimensional array of floats is numpy's pairwise
    summation, whose order of additions decides the rounding:

    - below eight items, the items are added up in order;
    - from eight to [PW_BLOCKSIZE] items, eight running totals take the
      items eight at a time (total [j] adds up the items at [j], [j + 8],
      [j + 16], ...), the totals are added as
      [((r0 + r1) + (r2 + r3)) + ((r4 + r5) + (r6 + r7))], and the items
      left over after the last full row of eight are added one by one;
    - above that, the array is cut at half its length rounded down to a
      multiple of eight, and the sums of the two parts are added.

    A running total starts at its first item, so a total that is zero has
    the sign the additions give it.  The sum of no item is [0.0]. *)
Definition PW_BLOCKSIZE : nat := 128.

Definition sum_in_order (l : list num) : num :=
  match l with
  | [] => f0_0
  | x :: r => fold_left add r x
  end.

(** The items of [l] at places 0, 8, 16, ..., one per row. *)
Fixpoint every_eighth (rows : nat) (l : list num) : list num :=
  match rows, l with
  | S rows, x :: _ => x :: every_eighth rows (skipn 8 l)
  | _, _ => []
  end.

Definition sum_unrolled (l : list num) : num :=
  let rows := (List.length l / 8)%nat in
  let r (j : nat) := sum_in_order (every_eighth rows (skipn j l)) in
  fold_left add (skipn (8 * rows) l)
    (add (add (add (r 0%nat) (r 1%nat)) (add (r 2%nat) (r 3%nat)))
         (add (add (r 4%nat) (r 5%nat)) (add (r 6%nat) (r 7%nat)))).

(** The place at which a long array is cut. *)
Definition half_point (n : nat) : nat := (n / 2 - (n / 2) mod 8)%nat.

(** [depth] bounds the number of nested cuts; [np_sum] gives as many as
    there are items, which is more than the cuts there can be
    ([pairwise_sum_depth] below). *)
Fixpoint pairwise_sum (depth : nat) (l : list num) : num :=
  let n := List.length l in
  if (n <? 8)%nat then sum_in_order l
  else if (n <=? PW_BLOCKSIZE)%nat then sum_unrolled l
  else
    match depth with
    | S depth =>
        add (pairwise_sum depth (firstn (half_point n) l))
            (pairwise_sum depth (skipn (half_point n) l))
    | O => sum_unrolled l
    end.

Definition np_sum (l : list num) : num := pairwise_sum (List.length l) l.

(** [np.mean(l)]: the sum divided by the number of items. *)
Definition np_mean (l : list num) : num := div (np_sum l) (of_len (len l)).

End Numpy.

(** ** [src/trading/ai_agent.py] *)

Inductive Action : Type := buy | sell | hold.

(** The value of the ["action"] key. *)
Definition action_str (a : Action) : string :=
  match a with buy => "buy" | sell => "sell" | hold => "hold" end.

(** [str.upper] on the three action names. *)
Definition action_upper (a : Action) : string :=
  match a with buy => "BUY" | sell => "SELL" | hold => "HOLD" end.

(** The dict returned by [get_recommendation]; [None] is [None]. *)
Record Recommendation (num : Type) : Type := {
  action : Action;
  reasoning : string;
  entry_price : option num;
  take_profit : option num;
  confidence : num;
  timestamp : string
}.
Arguments action {num} _.
Arguments reasoning {num} _.
Arguments entry_price {num} _.
Arguments take_profit {num} _.
Arguments confidence {num} _.
Arguments timestamp {num} _.

Module AIAgent.
Section WithArith.
Context {num : Type} `{Arith num}.
Local Open Scope py_scope.

(** The attributes of an [AIAgent] instance. *)
Record t : Type := {
  short_window : Z;
  long_window : Z;
  prices : list num
}.

(** [AIAgent(short_window, long_window)]; the defaults are 50 and 200.
    The body is three assignments; nothing is checked. *)
Definition __init__ (short_window long_window : Z) : outcome t :=
  Returned {| short_window := short_window;
              long_window := long_window;
              prices := [] |}.

Definition default_short_window : Z := 50.
Definition default_long_window : Z := 200.

Definition calculate_moving_average (window : Z) : M t (option num) :=
  let! ps := gets prices in
  if (len ps <? window)%Z then ret None
  else ret (Some (np_mean (slice_from ps (- window)))).

Definition add_price (price : num) : M t unit :=
  modify (fun self => {| short_window := short_window self;
                         long_window := long_window self;
                         prices := prices self ++ [price] |}).

(** [now] is what [datetime.now().isoformat()] gives during the call. *)
Definition get_recommendation (now : string) : M t (Recommendation num) :=
  let! ps := gets prices in
  let! lw := gets long_window in
  if (len ps <? lw)%Z then
    ret {| action := hold;
           reasoning := "Insufficient data for prediction";
           entry_price := None;
           take_profit := None;
           confidence := f0_0;
           timestamp := now |}
  else
    let! current_price := (let! ps := gets prices in lift_outcome (getitem ps (-1))) in
    let! prev_price := (let! ps := gets prices in lift_outcome (getitem ps (-2))) in
    let! sw := gets short_window in
    let! short_ma := calculate_moving_average sw in
    let! lw := gets long_window in
    let! long_ma := calculate_moving_average lw in
    match short_ma, long_ma with
    | Some short_ma, Some long_ma =>
        let ma_diff := div (abs (sub short_ma long_ma)) long_ma in
        let confidence := Py.min lt f0_95 (Py.max lt f0_5 (add f0_7 ma_diff)) in
        if lt long_ma short_ma && lt prev_price current_price then
          let take_profit := mul current_price f1_05 in
          ret {| action := buy;
                 reasoning := "Short-term MA (" ++ fmt_2f short_ma
                              ++ ") above long-term MA (" ++ fmt_2f long_ma
                              ++ "), price increasing";
                 entry_price := Some current_price;
                 take_profit := Some take_profit;
                 confidence := confidence;
                 timestamp := now |}
        else if lt short_ma long_ma && lt current_price prev_price then
          let take_profit := mul current_price f0_95 in
          ret {| action := sell;
                 reasoning := "Short-term MA (" ++ fmt_2f short_ma
                              ++ ") below long-term MA (" ++ fmt_2f long_ma
                              ++ "), price decreasing";
                 entry_price := Some current_price;
                 take_profit := Some take_profit;
                 confidence := confidence;
                 timestamp := now |}
        else
          ret {| action := hold;
                 reasoning := "No clear trend detected";
                 entry_price := None;
                 take_profit := None;
                 confidence := confidence;
                 timestamp := now |}
    | _, _ =>
        ret {| action := hold;
               reasoning := "Error calculating moving averages";
               entry_price := None;
               take_profit := None;
               confidence := f0_0;
               timestamp := now |}
    end.

End WithArith.
Arguments t num : clear implicits.
End AIAgent.

(** ** Exact rational arithmetic *)

(** The arithmetic of the specification: numbers read as rationals, with
    no rounding and no overflow.  A division by zero, which numpy answers
    with [inf] or [nan], is [0] here.  The program does not compute this
    way: the instance serves closed scenarios and instances of general
    properties, and no general property depends on it. *)
Module RationalArith.

(** [a < b] decided on cross products. *)
Definition ltb (a b : Q) : bool := (Qnum a * QDen b <? Qnum b * QDen a)%Z.

(** Round to the nearest integer, ties to the even one. *)
Definition round_half_even (x : Q) : Z :=
  let fl := Qfloor x in
  let rest := (x - inject_Z fl)%Q in
  if ltb rest (1 # 2) then fl
  else if ltb (1 # 2) rest then (fl + 1)%Z
  else if Z.even fl then fl else (fl + 1)%Z.

Definition digits (z : Z) : string := NilZero.string_of_uint (N.to_uint (Z.to_N z)).

(** [{x:.2f}]: sign, integer part, point, two decimals. *)
Definition format_2f (x : Q) : string :=
  let cents := round_half_even (Qabs x * 100) in
  let frac := (cents mod 100)%Z in
  ((if ltb x 0 then "-" else "")
   ++ digits (cents / 100) ++ "."
   ++ (if (frac <? 10)%Z then "0" else "") ++ digits frac)%string.

#[global] Instance Q_Arith : Arith Q := {|
  add := Qplus;
  sub := Qminus;
  mul := Qmult;
  div := Qdiv;
  abs := Qabs;
  lt := ltb;
  of_int := fun z => Some (inject_Z z);
  of_len := inject_Z;
  fmt_2f := format_2f;
  f0_0 := 0.0;
  f0_5 := 0.5;
  f0_7 := 0.7;
  f0_95 := 0.95;
  f1_05 := 1.05
|}.

End RationalArith.

(** ** IEEE binary64 arithmetic *)

(** Python's [float] and numpy's [float64] bit for bit: every operation
    rounds to nearest, ties to even, overflows to an infinity, and a
    comparison with a NaN is false. *)
Module Binary64.
Local Set Warnings "-inexact-float".

(** The float nearest to an integer. *)
Definition of_Z (z : Z) : float := SF2Prim (binary_normalize prec emax z 0 false).

Definition float_of_int (z : Z) : option float :=
  let x := of_Z z in
  if PrimFloat.is_infinity x then None else Some x.

(** The exact value of a finite float. *)
Definition to_Q (x : float) : option Q :=
  match Prim2SF x with
  | S754_zero _ => Some 0%Q
  | S754_finite s m e =>
      let v := (inject_Z (Zpos m) * Qpower 2 e)%Q in
      Some (if s then Qopp v else v)
  | S754_infinity _ | S754_nan => None
  end.

Definition format_2f (x : float) : string :=
  match to_Q x with
  | Some q =>
      ((if PrimFloat.get_sign x && negb (RationalArith.ltb q 0) then "-" else "")
       ++ RationalArith.format_2f q)%string
  | None =>
      if PrimFloat.is_nan x then "nan"
      else if PrimFloat.get_sign x then "-inf" else "inf"
  end.

#[global] Instance float_Arith : Arith float := {|
  add := PrimFloat.add;
  sub := PrimFloat.sub;
  mul := PrimFloat.mul;
  div := PrimFloat.div;
  abs := PrimFloat.abs;
  lt := PrimFloat.ltb;
  of_int := float_of_int;
  of_len := of_Z;
  fmt_2f := format_2f;
  f0_0 := 0%float;
  f0_5 := 0.5%float;
  f0_7 := 0.7%float;
  f0_95 := 0.95%float;
  f1_05 := 1.05%float
|}.

End Binary64.

(** ** JSON documents, as [json.loads] returns them *)

#[local] Unset Elimination Schemes.
Inductive json (num : Type) : Type :=
| JNone
| JBool (b : bool)
| JInt (z : Z)
| JFloat (x : num)
| JStr (s : string)
| JList (l : list (json num))
| JDict (kv : list (string * json num)).
#[local] Set Elimination Schemes.
Arguments JNone {num}.
Arguments JBool {num} b.
Arguments JInt {num} z.
Arguments JFloat {num} x.
Arguments JStr {num} s.
Arguments JList {num} l.
Arguments JDict {num} kv.

Module PyJson.
Section WithArith.
Context {num : Type} `{Arith num}.

(** Python's [float()] on a [str]; [None] where it raises ValueError.
    The builtin is not part of the repository. *)
Variable float_of_str : string -> option num.

Definition type_name (v : json num) : string :=
  match v with
  | JNone => "NoneType"
  | JBool _ => "bool"
  | JInt _ => "int"
  | JFloat _ => "float"
  | JStr _ => "str"
  | JList _ => "list"
  | JDict _ => "dict"
  end.

(** The value bound to [key] in a dict; where a key occurs twice the
    later binding counts, as in [json.loads]. *)
Fixpoint lookup (key : string) (kv : list (string * json num)) : option (json num) :=
  match kv with
  | [] => None
  | (k, v) :: rest =>
      match lookup key rest with
      | Some w => Some w
      | None => if String.eqb k key then Some v else None
      end
  end.

Definition is_substring (needle hay : string) : bool :=
  match String.index 0 needle hay with Some _ => true | None => false end.

(** [key in data] for a [str] key. *)
Definition contains (key : string) (data : json num) : outcome bool :=
  match data with
  | JDict kv => Returned (match lookup key kv with Some _ => true | None => false end)
  | JList l =>
      Returned (existsb (fun v => match v with
                                  | JStr s => String.eqb s key
                                  | _ => false
                                  end) l)
  | JStr s => Returned (is_substring key s)
  | _ => Raised (Exn "TypeError"
                   ("argument of type '" ++ type_name data ++ "' is not iterable"))
  end.

(** [data[key]] for a [str] key. *)
Definition subscript (data : json num) (key : string) : outcome (json num) :=
  match data with
  | JDict kv =>
      match lookup key kv with
      | Some v => Returned v
      | None => Raised (Exn "KeyError" key)
      end
  | JList _ => Raised (Exn "TypeError" "list indices must be integers or slices, not str")
  | JStr _ => Raised (Exn "TypeError" "string indices must be integers, not 'str'")
  | _ => Raised (Exn "TypeError"
                   ("'" ++ type_name data ++ "' object is not subscriptable"))
  end.

(** [isinstance(v, dict)] *)
Definition is_dict (v : json num) : bool :=
  match v with JDict _ => true | _ => false end.

(** [d.get(key, default)]; any other object has no [get]. *)
Definition get (d : json num) (key : string) (default : json num) : outcome (json num) :=
  match d with
  | JDict kv =>
      Returned (match lookup key kv with Some v => v | None => default end)
  | _ => Raised (Exn "AttributeError"
                   ("'" ++ type_name d ++ "' object has no attribute 'get'"))
  end.

(** [float(v)] *)
Definition float (v : json num) : outcome num :=
  match v with
  | JFloat x => Returned x
  | JInt z =>
      match of_int z with
      | Some x => Returned x
      | None => Raised (Exn "OverflowError" "int too large to convert to float")
      end
  | JBool b =>
      match of_int (if b then 1 else 0) with
      | Some x => Returned x
      | None => Raised (Exn "OverflowError" "int too large to convert to float")
      end
  | JStr s =>
      match float_of_str s with
      | Some x => Returned x
      | None => Raised (Exn "ValueError"
                          ("could not convert string to float: '" ++ s ++ "'"))
      end
  | _ => Raised (Exn "TypeError"
                   ("float() argument must be a string or a real number, not '"
                    ++ type_name v ++ "'"))
  end.

End WithArith.
End PyJson.

(** ** [src/trading_signals.py] *)

Definition MAX_RECONNECT_ATTEMPTS : Z := 5.
Definition RECONNECT_DELAY : Z := 5.
Definition EMB_TOKEN_ADDRESS : string := "D8U9GxmBGs98geNjWkrYf4GUjHqDvMgG5XdL41TXpump".

(** The trade dict built by [generate_signals]. *)
Record Trade (num : Type) : Type := {
  trade_id : string;
  trade_type : string;
  trade_asset : string;
  trade_entry_price : option num;
  trade_take_profit : option num;
  trade_quantity : Z;
  trade_timestamp : string;
  trade_confidence : num;
  trade_reasoning : string
}.
Arguments trade_id {num} _.
Arguments trade_type {num} _.
Arguments trade_asset {num} _.
Arguments trade_entry_price {num} _.
Arguments trade_take_profit {num} _.
Arguments trade_quantity {num} _.
Arguments trade_timestamp {num} _.
Arguments trade_confidence {num} _.
Arguments trade_reasoning {num} _.

(** What the feed loop does to the outside, in order. *)
Inductive effect : Type :=
| Connect                       (* websockets.connect(SHYFT_WS_URL) *)
| Send (method : string) (param : string)   (* the subscribe message *)
| Close                         (* leaving [async with] closes the socket *)
| LogError (msg : string)       (* logging.error *)
| Sleep (seconds : Z).          (* asyncio.sleep *)

(** What the network answers to the three awaits of the loop.  A received
    frame is given by what [json.loads] makes of its text. *)
Inductive net_event (num : Type) : Type :=
| ConnectOk (ws : nat)
| ConnectRaises (e : exn)
| SendOk
| SendRaises (e : exn)
| Recv (data : outcome (json num))
| RecvRaises (e : exn).
Arguments ConnectOk {num} ws.
Arguments ConnectRaises {num} e.
Arguments SendOk {num}.
Arguments SendRaises {num} e.
Arguments Recv {num} data.
Arguments RecvRaises {num} e.

(** Where the coroutine [process_websocket_message] is suspended. *)
Inductive phase : Type :=
| Connecting        (* in [websockets.connect] *)
| Subscribing       (* in [websocket.send] *)
| Receiving         (* in [websocket.recv] *)
| ReturnedFalse.    (* after [return False] *)

Module ProfessionalTradingStrategy.
Section WithArith.
Context {num : Type} `{Arith num}.
Variable float_of_str : string -> option num.
Local Open Scope py_scope.

(** The attributes of an instance. *)
Record t : Type := {
  network : string;
  prices : list num;
  pending_trades : gmap string (Trade num);
  ai_agent : AIAgent.t num;
  websocket : option nat
}.

Definition set_prices (ps : list num) (self : t) : t :=
  {| network := network self; prices := ps;
     pending_trades := pending_trades self;
     ai_agent := ai_agent self; websocket := websocket self |}.

Definition set_pending_trades (m : gmap string (Trade num)) (self : t) : t :=
  {| network := network self; prices := prices self;
     pending_trades := m;
     ai_agent := ai_agent self; websocket := websocket self |}.

Definition set_ai_agent (a : AIAgent.t num) (self : t) : t :=
  {| network := network self; prices := prices self;
     pending_trades := pending_trades self;
     ai_agent := a; websocket := websocket self |}.

Definition set_websocket (ws : option nat) (self : t) : t :=
  {| network := network self; prices := prices self;
     pending_trades := pending_trades self;
     ai_agent := ai_agent self; websocket := ws |}.

Definition __init__ (network : string) : outcome t :=
  match AIAgent.__init__ AIAgent.default_short_window AIAgent.default_long_window with
  | Returned agent =>
      Returned {| network := network; prices := []; pending_trades := ∅;
                  ai_agent := agent; websocket := None |}
  | Raised e => Raised e
  end.

(** [fetch_historical_data], given the 250 mock prices it draws.  The
    handler also logs the exception. *)
Definition fetch_historical_data (mock : list num) : M t bool :=
  try_except
    (do! modify (set_prices mock) in
     do! fold_left (fun acc price =>
                      do! acc in zoom ai_agent set_ai_agent (AIAgent.add_price price))
                   mock (ret tt) in
     ret true)
    (fun e => ret false).

(** The body of the inner [while True] once [json.loads] has returned
    [data]. *)
Definition on_message (data : json num) : M t unit :=
  let! has_result := lift_outcome (PyJson.contains "result" data) in
  if has_result then
    let! result := lift_outcome (PyJson.subscript data "result") in
    if PyJson.is_dict result then
      let! v := lift_outcome (PyJson.get result "price" (JInt 0)) in
      let! price := lift_outcome (PyJson.float float_of_str v) in
      if lt f0_0 price then
        do! modify (fun self => set_prices (prices self ++ [price]) self) in
        zoom ai_agent set_ai_agent (AIAgent.add_price price)
      else ret tt
    else ret tt
  else ret tt.

(** The coroutine [process_websocket_message] between two awaits: the
    object, the local [reconnect_attempts], the suspension point and the
    effects so far (latest last). *)
Record feed : Type := {
  self : t;
  reconnect_attempts : Z;
  at_phase : phase;
  effects : list effect
}.

(** The head of [while reconnect_attempts < MAX_RECONNECT_ATTEMPTS]:
    either the next [websockets.connect] or the two lines after the
    loop. *)
Definition loop_head (self : t) (attempts : Z) (effs : list effect) : feed :=
  if (attempts <? MAX_RECONNECT_ATTEMPTS)%Z then
    {| self := self; reconnect_attempts := attempts;
       at_phase := Connecting; effects := effs ++ [Connect] |}
  else
    {| self := self; reconnect_attempts := attempts;
       at_phase := ReturnedFalse;
       effects := effs ++ [LogError "Max reconnection attempts reached"] |}.

(** An exception raised at the suspension point of [f] or in the code
    that follows it: it leaves the [async with] block when it was raised
    inside, which closes the socket, and reaches
    [except Exception as e]: log, count, sleep, and back to the head of
    the loop. *)
Definition on_exception (f : feed) (self' : t) (e : exn) : feed :=
  loop_head self' (reconnect_attempts f + 1)
    (effects f
     ++ match at_phase f with
        | Subscribing | Receiving => [Close]
        | _ => []
        end
     ++ [LogError ("WebSocket error: " ++ exn_msg e);
         Sleep RECONNECT_DELAY]).

(** The call [process_websocket_message()] up to its first await. *)
Definition start (self : t) : feed := loop_head self 0 [].

(** One answer of the network; [None] where the coroutine does not wait
    for that answer. *)
Definition step (f : feed) (ev : net_event num) : option feed :=
  match at_phase f, ev with
  | Connecting, ConnectOk ws =>
      Some {| self := set_websocket (Some ws) (self f);
              reconnect_attempts := reconnect_attempts f;
              at_phase := Subscribing;
              effects := effects f ++ [Send "subscribeProgram" EMB_TOKEN_ADDRESS] |}
  | Connecting, ConnectRaises e => Some (on_exception f (self f) e)
  | Subscribing, SendOk =>
      Some {| self := self f; reconnect_attempts := reconnect_attempts f;
              at_phase := Receiving; effects := effects f |}
  | Subscribing, SendRaises e => Some (on_exception f (self f) e)
  | Receiving, Recv (Returned data) =>
      match on_message data (self f) with
      | (Returned _, self') =>
          Some {| self := self'; reconnect_attempts := reconnect_attempts f;
                  at_phase := Receiving; effects := effects f |}
      | (Raised e, self') => Some (on_exception f self' e)
      end
  | Receiving, Recv (Raised e) => Some (on_exception f (self f) e)
  | Receiving, RecvRaises e => Some (on_exception f (self f) e)
  | _, _ => None
  end.

(** The coroutine driven by a script of answers. *)
Fixpoint run (f : feed) (evs : list (net_event num)) : option feed :=
  match evs with
  | [] => Some f
  | ev :: rest =>
      match step f ev with
      | Some f' => run f' rest
      | None => None
      end
  end.

(** How often [websockets.connect] was called. *)
Definition count_connects (effs : list effect) : nat :=
  List.length (filter (fun e => match e with Connect => true | _ => false end) effs).
Definition connect_calls (f : feed) : nat := count_connects (effects f).

Definition get_ai_recommendation (now : string) : M t (Recommendation num) :=
  zoom ai_agent set_ai_agent (AIAgent.get_recommendation now).

(** The class has no attribute [execute_trade]: evaluating
    [strategy.execute_trade] raises before any argument is looked at. *)
Definition getattr_execute_trade : M t (json num -> M t (json num)) :=
  raise (Exn "AttributeError"
           "'ProfessionalTradingStrategy' object has no attribute 'execute_trade'").

End WithArith.
Arguments t num : clear implicits.
Arguments feed num : clear implicits.
End ProfessionalTradingStrategy.

(** The dict returned by [generate_signals], by its ["type"]. *)
Inductive Signal (num : Type) : Type :=
| error_signal (message timestamp : string)
| trade_prompt (trade : Trade num) (confidence : num)
| no_trade (message timestamp : string).
Arguments error_signal {num} message timestamp.
Arguments trade_prompt {num} trade confidence.
Arguments no_trade {num} message timestamp.

(** A line written to standard output by [main]. *)
Inductive printed (num : Type) : Type :=
| print_signal (s : Signal num)
| print_trade_result (result : json num)
| print_trade_skipped (trade_id : json num).
Arguments print_signal {num} s.
Arguments print_trade_result {num} result.
Arguments print_trade_skipped {num} trade_id.

Module TradingSignals.
Import ProfessionalTradingStrategy.
Section WithArith.
Context {num : Type} `{Arith num}.
Variable float_of_str : string -> option num.
Local Open Scope py_scope.

(** [generate_signals].  The feed task runs while the caller sleeps or
    awaits it: [warmup] are the answers of the network during
    [asyncio.sleep(1)], [rest] those during [await websocket_task].
    [mock] are the drawn historical prices, [uuid4] the drawn trade id,
    [now] and [now_end] the two clock readings.  The result is [None]
    while the coroutine is still suspended at the end of the script, and
    otherwise what it raises, or what it returns together with its local
    [strategy] object. *)
Definition generate_signals (network : string) (mock : list num)
    (warmup rest : list (net_event num)) (uuid4 now now_end : string)
  : option (outcome (Signal num * t num)) :=
  match __init__ network with
  | Raised e => Some (Raised e)
  | Returned strategy =>
      match fetch_historical_data mock strategy with
      | (Raised e, _) => Some (Raised e)
      | (Returned false, strategy) =>
          Some (Returned (error_signal "Failed to fetch historical data" now, strategy))
      | (Returned true, strategy) =>
          match run float_of_str (start strategy) warmup with
          | None => None
          | Some task =>
              match get_ai_recommendation now (self task) with
              | (Raised e, _) => Some (Raised e)
              | (Returned recommendation, strategy) =>
                  match action recommendation with
                  | buy | sell =>
                      let trade :=
                        {| trade_id := uuid4;
                           trade_type := action_upper (action recommendation);
                           trade_asset := "EMB/USD";
                           trade_entry_price := entry_price recommendation;
                           trade_take_profit := take_profit recommendation;
                           trade_quantity := 100;
                           trade_timestamp := timestamp recommendation;
                           trade_confidence := confidence recommendation;
                           trade_reasoning := reasoning recommendation |} in
                      let strategy :=
                        set_pending_trades
                          (<[uuid4 := trade]> (pending_trades strategy)) strategy in
                      Some (Returned (trade_prompt trade (confidence recommendation),
                                      strategy))
                  | hold =>
                      match run float_of_str
                              {| self := strategy;
                                 reconnect_attempts := reconnect_attempts task;
                                 at_phase := at_phase task;
                                 effects := effects task |} rest with
                      | Some done =>
                          match at_phase done with
                          | ReturnedFalse =>
                              Some (Returned (no_trade (reasoning recommendation) now_end,
                                              self done))
                          | _ => None
                          end
                      | None => None
                      end
                  end
              end
          end
      end
  end.

(** The process [main] between two prompts: its own [strategy] object,
    what it has printed and what it has logged. *)
Record console : Type := {
  strategy : t num;
  stdout : list (printed num);
  error_log : list string
}.

Definition set_strategy (st : t num) (c : console) : console :=
  {| strategy := st; stdout := stdout c; error_log := error_log c |}.

Definition print (line : printed num) : M console unit :=
  modify (fun c => {| strategy := strategy c;
                      stdout := stdout c ++ [line];
                      error_log := error_log c |}).

Definition logging_error (msg : string) : M console unit :=
  modify (fun c => {| strategy := strategy c;
                      stdout := stdout c;
                      error_log := error_log c ++ [msg] |}).

(** [v == "accept"] *)
Definition is_accept (v : json num) : bool :=
  match v with JStr s => String.eqb s "accept" | _ => false end.

(** The inner [try] of [main], entered after a trade prompt: [line] is
    what [json.loads(input())] returns or raises. *)
Definition main_trade_response (line : outcome (json num)) : M console unit :=
  try_except
    (let! response := lift_outcome line in
     let! decision := lift_outcome (PyJson.get response "decision" JNone) in
     if is_accept decision then
       let! execute_trade := zoom strategy set_strategy getattr_execute_trade in
       let! trade_id := lift_outcome (PyJson.get response "id" JNone) in
       let! result := zoom strategy set_strategy (execute_trade trade_id) in
       print (print_trade_result result)
     else
       let! trade_id := lift_outcome (PyJson.get response "id" JNone) in
       print (print_trade_skipped trade_id))
    (fun e => logging_error ("Error processing trade response: " ++ exn_msg e)).

(** One turn of the [while True] of [main], given what
    [asyncio.run(generate_signals())] returned or raised and the line
    read from the console. *)
Definition main_iteration (signals : outcome (Signal num))
    (line : outcome (json num)) : M console unit :=
  try_except
    (let! signals := lift_outcome signals in
     do! print (print_signal signals) in
     match signals with
     | trade_prompt _ _ => main_trade_response line
     | _ => ret tt
     end)
    (fun e => logging_error ("Error in main loop: " ++ exn_msg e)).

(** The decision record [{id, decision}] the confirmation surface
    writes, and [main]'s handling of it. *)
Definition decision_line (id : string) (accept : bool) : outcome (json num) :=
  Returned (JDict [("id", JStr id);
                   ("decision", JStr (if accept then "accept" else "skip"))]).

Definition decide (id : string) (accept : bool) : M console unit :=
  main_trade_response (decision_line id accept).

End WithArith.
Arguments console num : clear implicits.
End TradingSignals.

(** ** [src/trading/alpaca_client.py] *)

Module AlpacaClient.
Section WithBroker.
(** Python values passed through to the broker, the order object it
    answers with, and the state of the brokerage behind the REST API. *)
Variables (value order broker : Type).

Record order_request : Type := {
  symbol : value;
  qty : value;
  side : value;
  type : value;
  time_in_force : value
}.

(** [self.api.submit_order], of the [alpaca_trade_api] package. *)
Variable submit_order : order_request -> M broker order.

(** The client object with its REST handle, and standard output. *)
Record t : Type := {
  api : broker;
  printed_lines : list string
}.

Definition set_api (b : broker) (self : t) : t :=
  {| api := b; printed_lines := printed_lines self |}.

Definition print (line : string) : M t unit :=
  modify (fun self => {| api := api self;
                         printed_lines := printed_lines self ++ [line] |}).

Local Open Scope py_scope.

(** [place_order(symbol, qty, side, type, time_in_force)]; the last two
    default to ['market'] and ['gtc'] at the call site. *)
Definition place_order (symbol qty side type time_in_force : value)
  : M t (option order) :=
  try_except
    (let! order := zoom api set_api
                     (submit_order {| symbol := symbol; qty := qty; side := side;
                                      type := type;
                                      time_in_force := time_in_force |}) in
     ret (Some order))
    (fun e =>
       do! print ("Error placing order: " ++ exn_msg e) in
       ret None).

(** [self.api.get_account] and [self.api.get_position], of the same
    package, with the objects they answer with. *)
Variables (account position : Type).
Variable api_get_account : M broker account.
Variable api_get_position : value -> M broker position.

Definition get_account : M t account := zoom api set_api api_get_account.

Definition get_position (symbol : value) : M t (option position) :=
  try_except
    (let! position := zoom api set_api (api_get_position symbol) in
     ret (Some position))
    (fun e =>
       do! print ("Error getting position: " ++ exn_msg e) in
       ret None).

(** The constructors [REST(key_id, secret_key, base_url)] and
    [Stream(key_id, secret_key, base_url, data_feed)] of the package. *)
Variable REST : string -> string -> string -> broker.
Variable stream_handle : Type.
Variable Stream : string -> string -> string -> string -> stream_handle.

(** All attributes of a constructed client. *)
Record instance : Type := {
  api_key : string;
  api_secret : string;
  base_url : string;
  client : t;
  stream : stream_handle
}.

(** [AlpacaClient()], given [os.environ] after [load_dotenv()] and what
    has been printed so far.  [os.getenv] answers [None] for an unset name,
    and [not] holds of [None] and of the empty string. *)
Definition __init__ (environ : gmap string string) (stdout : list string)
  : outcome instance :=
  let base_url := "https://paper-api.alpaca.markets/v2"%string in
  match environ !! "ALPACA_API_KEY"%string, environ !! "ALPACA_API_SECRET"%string with
  | Some key, Some secret =>
      if String.eqb key "" || String.eqb secret "" then
        Raised (Exn "ValueError"
                  "Alpaca API credentials not found in environment variables")
      else
        Returned {| api_key := key;
                    api_secret := secret;
                    base_url := base_url;
                    client := {| api := REST key secret base_url;
                                 printed_lines := stdout |};
                    stream := Stream key secret base_url "iex" |}
  | _, _ =>
      Raised (Exn "ValueError"
                "Alpaca API credentials not found in environment variables")
  end.

End WithBroker.
End AlpacaClient.

(** * The vocabulary of the properties *)

(** ** Lists and computations *)

(** The last [n] items of a list, and the item [k] places before the end
    ([from_end 0 l] is the last one). *)
Definition last_n {A} (n : nat) (l : list A) : list A := skipn (List.length l - n) l.
Definition from_end {A} (k : nat) (l : list A) : option A :=
  if (k <? List.length l)%nat then nth_error l (List.length l - 1 - k) else None.

(** A computation that only reads: it hands back the object it was given. *)
Definition read_only {S A} (m : M S A) : Prop := forall s, snd (m s) = s.

(** ** The indicator engine *)

(** The branch taken once both averages exist, as a relation between the
    inputs of the decision and the dict returned. *)
Definition decided {num : Type} `{Arith num} (now : string)
    (cur prev short_ma long_ma : num) (r : Recommendation num) : Prop :=
  timestamp r = now
  /\ confidence r
     = Py.min lt f0_95
         (Py.max lt f0_5 (add f0_7 (div (abs (sub short_ma long_ma)) long_ma)))
  /\ (if lt long_ma short_ma && lt prev cur then
        action r = buy /\ entry_price r = Some cur
        /\ take_profit r = Some (mul cur f1_05)
      else if lt short_ma long_ma && lt cur prev then
        action r = sell /\ entry_price r = Some cur
        /\ take_profit r = Some (mul cur f0_95)
      else
        action r = hold /\ entry_price r = None /\ take_profit r = None
        /\ reasoning r = "No clear trend detected"%string).

(** The arithmetic mean as the specification has it, on exact numbers: the
    total divided by the count. *)
Definition total (l : list Q) : Q := fold_right Qplus 0 l.
Definition arithmetic_mean (l : list Q) : Q :=
  total l / inject_Z (Z.of_nat (List.length l)).

(** [clamp(x, lo, hi)] on exact numbers. *)
Definition clamp (x lo hi : Q) : Q :=
  if Qlt_le_dec x lo then lo else if Qlt_le_dec hi x then hi else x.

(** [add_price] called on each item in turn, and [get_recommendation] called
    once per clock reading. *)
Definition add_prices {num : Type} (ps : list num) (self : AIAgent.t num) : AIAgent.t num :=
  fold_left (fun self p => snd (AIAgent.add_price p self)) ps self.

Fixpoint poll {num : Type} `{Arith num} (nows : list string) (self : AIAgent.t num)
  : list (outcome (Recommendation num)) * AIAgent.t num :=
  match nows with
  | [] => ([], self)
  | now :: rest =>
      let (r, self') := AIAgent.get_recommendation now self in
      let (rs, self'') := poll rest self' in
      (r :: rs, self'')
  end.

(** Agreement up to a tolerance. *)
Definition approx (tolerance x y : Q) : Prop := (Qabs (x - y) <= tolerance)%Q.

(** The engine of the six-tick scenario: windows 2 and 4, then the ticks. *)
Definition scenario_ticks : list Q := [1.0; 1.0; 1.0; 1.0; 1.1; 1.2]%Q.
Definition scenario_engine : AIAgent.t Q :=
  add_prices scenario_ticks
    {| AIAgent.short_window := 2; AIAgent.long_window := 4; AIAgent.prices := [] |}.

(** The same engine over binary64. *)
Section Binary64Histories.
Local Set Warnings "-inexact-float".

Definition scenario_engine_binary64 : AIAgent.t float :=
  add_prices [1.0; 1.0; 1.0; 1.0; 1.1; 1.2]%float
    {| AIAgent.short_window := 2; AIAgent.long_window := 4; AIAgent.prices := [] |}.

End Binary64Histories.

(** The dict [get_recommendation] builds once it has the last two prices
    and both averages. *)
Definition recommendation_of {num : Type} `{Arith num} (now : string)
    (cur prev short_ma long_ma : num) : Recommendation num :=
  let conf :=
    Py.min lt f0_95
      (Py.max lt f0_5 (add f0_7 (div (abs (sub short_ma long_ma)) long_ma))) in
  if lt long_ma short_ma && lt prev cur then
    {| action := buy;
       reasoning := "Short-term MA (" ++ fmt_2f short_ma
                    ++ ") above long-term MA (" ++ fmt_2f long_ma
                    ++ "), price increasing";
       entry_price := Some cur;
       take_profit := Some (mul cur f1_05);
       confidence := conf;
       timestamp := now |}
  else if lt short_ma long_ma && lt cur prev then
    {| action := sell;
       reasoning := "Short-term MA (" ++ fmt_2f short_ma
                    ++ ") below long-term MA (" ++ fmt_2f long_ma
                    ++ "), price decreasing";
       entry_price := Some cur;
       take_profit := Some (mul cur f0_95);
       confidence := conf;
       timestamp := now |}
  else
    {| action := hold;
       reasoning := "No clear trend detected";
       entry_price := None;
       take_profit := None;
       confidence := conf;
       timestamp := now |}.

(** What the confidence of an answer can be: the literal 0.0, one of the
    two ends of the clamp, or a value strictly between them. *)
Definition confidence_shape {num : Type} `{Arith num} (c : num) : Prop :=
  c = f0_0 \/ c = f0_5 \/ c = f0_95 \/ (lt f0_5 c = true /\ lt c f0_95 = true).

(** The prices 1, 2, ..., n. *)
Definition ramp (n : nat) : list Q := map (fun i => inject_Z (Z.of_nat i)) (seq 1 n).

(** ** The feed loop and the console *)

(** What holds between any two awaits of [process_websocket_message]:
    either the coroutine has returned, after exactly
    [MAX_RECONNECT_ATTEMPTS] failures and as many connects, or it is
    suspended with fewer failures and one connect more than failures. *)
Definition feed_inv {num : Type} (f : ProfessionalTradingStrategy.feed num) : Prop :=
  (ProfessionalTradingStrategy.at_phase f = ReturnedFalse
   /\ ProfessionalTradingStrategy.reconnect_attempts f = MAX_RECONNECT_ATTEMPTS
   /\ Z.of_nat (ProfessionalTradingStrategy.connect_calls f) = MAX_RECONNECT_ATTEMPTS)
  \/ (ProfessionalTradingStrategy.at_phase f <> ReturnedFalse
      /\ (0 <= ProfessionalTradingStrategy.reconnect_attempts f < MAX_RECONNECT_ATTEMPTS)%Z
      /\ Z.of_nat (ProfessionalTradingStrategy.connect_calls f)
         = (ProfessionalTradingStrategy.reconnect_attempts f + 1)%Z).

(** The seconds slept so far. *)
Fixpoint sleep_total (effs : list effect) : Z :=
  match effs with
  | [] => 0
  | Sleep seconds :: rest => seconds + sleep_total rest
  | _ :: rest => sleep_total rest
  end.

(** From [s] to [s'] both price lists have grown by [ticks], and the
    network name, the proposals and the windows are as they were. *)
Definition grown {num : Type} (s s' : ProfessionalTradingStrategy.t num)
    (ticks : list num) : Prop :=
  ProfessionalTradingStrategy.prices s' = ProfessionalTradingStrategy.prices s ++ ticks
  /\ AIAgent.prices (ProfessionalTradingStrategy.ai_agent s')
     = AIAgent.prices (ProfessionalTradingStrategy.ai_agent s) ++ ticks
  /\ AIAgent.short_window (ProfessionalTradingStrategy.ai_agent s')
     = AIAgent.short_window (ProfessionalTradingStrategy.ai_agent s)
  /\ AIAgent.long_window (ProfessionalTradingStrategy.ai_agent s')
     = AIAgent.long_window (ProfessionalTradingStrategy.ai_agent s)
  /\ ProfessionalTradingStrategy.pending_trades s'
     = ProfessionalTradingStrategy.pending_trades s
  /\ ProfessionalTradingStrategy.network s' = ProfessionalTradingStrategy.network s.

(** A frame that is [null], a boolean or a number. *)
Definition is_scalar {num : Type} (data : json num) : bool :=
  match data with
  | JNone | JBool _ | JInt _ | JFloat _ => true
  | _ => false
  end.

(** Five refused connects. *)
Definition refused (n : nat) : list (net_event Q) :=
  repeat (ConnectRaises (Exn "OSError" "connection refused")) n.

(** The frame [{"result": {"price": x}}]. *)
Definition price_frame (x : Q) : json Q := JDict [("result", JDict [("price", JFloat x)])].

(** A session that connects, subscribes and receives one tick at 1.5. *)
Definition one_tick_session : list (net_event Q) :=
  [ConnectOk 1; SendOk; Recv (Returned (price_frame 1.5))].

(** What a buy or sell answer carries: an entry price and the take profit
    that goes with its side. *)
Definition priced {num : Type} `{Arith num} (r : Recommendation num) : Prop :=
  exists p,
    entry_price r = Some p
    /\ ((action r = buy /\ take_profit r = Some (mul p f1_05))
        \/ (action r = sell /\ take_profit r = Some (mul p f0_95))).

(** A variable that [os.getenv] finds unset, or set to the empty string. *)
Definition unset (v : option string) : Prop := v = None \/ v = Some ""%string.

(** A fresh strategy object on devnet, as [ProfessionalTradingStrategy()]
    builds it, and the feed once connected and subscribed. *)
Definition devnet_strategy : ProfessionalTradingStrategy.t Q :=
  {| ProfessionalTradingStrategy.network := "devnet";
     ProfessionalTradingStrategy.prices := [];
     ProfessionalTradingStrategy.pending_trades := ∅;
     ProfessionalTradingStrategy.ai_agent :=
       {| AIAgent.short_window := 50; AIAgent.long_window := 200; AIAgent.prices := [] |};
     ProfessionalTradingStrategy.websocket := None |}.

(** A [float()] that rejects every string; the scripts below carry no
    string price. *)
Definition no_float_of_str : string -> option Q := fun _ => None.

Definition subscribed_feed : ProfessionalTradingStrategy.feed Q :=
  {| ProfessionalTradingStrategy.self :=
       ProfessionalTradingStrategy.set_websocket (Some 1%nat) devnet_strategy;
     ProfessionalTradingStrategy.reconnect_attempts := 0;
     ProfessionalTradingStrategy.at_phase := Receiving;
     ProfessionalTradingStrategy.effects :=
       [Connect; Send "subscribeProgram" EMB_TOKEN_ADDRESS] |}.

(** One connection that is established, subscribed and then lost. *)
Definition dropped_session (ws : nat) : list (net_event Q) :=
  [ConnectOk ws; SendOk; RecvRaises (Exn "ConnectionClosed" "no close frame received")].

(** The frame [{"result": {"price": null}}]. *)
Definition null_price_frame : json Q := JDict [("result", JDict [("price", JNone)])].

(** [main] at its first prompt: its own strategy object, nothing printed,
    nothing logged. *)
Definition fresh_console : TradingSignals.console Q :=
  {| TradingSignals.strategy := devnet_strategy;
     TradingSignals.stdout := [];
     TradingSignals.error_log := [] |}.

(** * Properties *)

(** ** Python lists *)

Lemma slice_from_last_n {A} (l : list A) (w : Z) :
  (0 < w <= len l)%Z -> slice_from l (- w) = last_n (Z.to_nat w) l.
Proof.
  intros Hw. unfold slice_from, last_n, len in *.
  destruct (Z.ltb_spec (- w) 0) as [_ | Hge]; [| lia].
  f_equal. lia.
Qed.

Lemma getitem_from_end {A} (l : list A) (k : nat) (x : A) :
  from_end k l = Some x -> getitem l (- Z.of_nat (S k)) = Returned x.
Proof.
  unfold from_end, getitem, len.
  destruct (Nat.ltb_spec k (List.length l)) as [Hk | Hk]; [| discriminate].
  intros Hx.
  destruct (Z.ltb_spec (- Z.of_nat (S k)) 0) as [_ | Hge]; [| lia].
  replace (Z.to_nat (- Z.of_nat (S k) + Z.of_nat (List.length l)))
    with (List.length l - 1 - k)%nat by lia.
  rewrite Hx.
  destruct (Z.leb_spec 0 (- Z.of_nat (S k) + Z.of_nat (List.length l)));
    destruct (Z.ltb_spec (- Z.of_nat (S k) + Z.of_nat (List.length l))
                         (Z.of_nat (List.length l))); simpl; try reflexivity; lia.
Qed.

Lemma from_end_is_Some {A} (l : list A) (k : nat) :
  (k < List.length l)%nat -> exists x, from_end k l = Some x.
Proof.
  intros Hk. unfold from_end.
  destruct (Nat.ltb_spec k (List.length l)) as [_ | Hge]; [| lia].
  destruct (nth_error l (List.length l - 1 - k)) as [x |] eqn:Hnth.
  - exists x. reflexivity.
  - apply nth_error_None in Hnth. lia.
Qed.

(** ** The state monad: computations that only read *)

Lemma read_only_ret {S A} (a : A) : read_only (S := S) (ret a).
Proof. intros s. reflexivity. Qed.

Lemma read_only_gets {S A} (f : S -> A) : read_only (gets f).
Proof. intros s. reflexivity. Qed.

Lemma read_only_lift_outcome {S A} (o : outcome A) : read_only (S := S) (lift_outcome o).
Proof. intros s. reflexivity. Qed.

Lemma read_only_bind {S A B} (m : M S A) (k : A -> M S B) :
  read_only m -> (forall a, read_only (k a)) -> read_only (Py.bind m k).
Proof.
  intros Hm Hk s. unfold Py.bind.
  specialize (Hm s). destruct (m s) as [[a | e] s']; simpl in Hm; subst s'.
  - apply Hk.
  - reflexivity.
Qed.

Lemma read_only_if {S A} (b : bool) (m1 m2 : M S A) :
  read_only m1 -> read_only m2 -> read_only (if b then m1 else m2).
Proof. destruct b; auto. Qed.

Create HintDb read_only discriminated.
#[global] Hint Resolve read_only_ret read_only_gets read_only_lift_outcome
  read_only_if : read_only.
#[global] Hint Extern 2 (read_only (Py.bind _ _)) =>
  apply read_only_bind; [| intros ?] : read_only.

(** ** The indicator engine, for any arithmetic *)

Section EngineFacts.
Context {num : Type} `{Arith num}.

Lemma calculate_moving_average_read_only (window : Z) :
  read_only (AIAgent.calculate_moving_average (num := num) window).
Proof. unfold AIAgent.calculate_moving_average. auto with read_only. Qed.

Lemma get_recommendation_read_only (now : string) :
  read_only (AIAgent.get_recommendation (num := num) now).
Proof.
  unfold AIAgent.get_recommendation.
  pose proof calculate_moving_average_read_only.
  repeat (first [ apply read_only_bind; [| intros ?]
                | apply read_only_if
                | apply read_only_ret
                | apply read_only_gets
                | apply read_only_lift_outcome
                | solve [auto]
                | match goal with
                  | |- read_only (match ?x with _ => _ end) => destruct x
                  end ]).
Qed.

Lemma calculate_moving_average_enough (self : AIAgent.t num) (window : Z) :
  (0 < window <= len (AIAgent.prices self))%Z ->
  AIAgent.calculate_moving_average window self
  = (Returned (Some (np_mean (last_n (Z.to_nat window) (AIAgent.prices self)))), self).
Proof.
  intros Hw. unfold AIAgent.calculate_moving_average, Py.bind, gets, ret.
  destruct (Z.ltb_spec (len (AIAgent.prices self)) window) as [Hlt | _]; [lia |].
  rewrite slice_from_last_n by exact Hw. reflexivity.
Qed.

Lemma get_recommendation_enough (self : AIAgent.t num) (now : string) (cur prev : num) :
  (0 < AIAgent.short_window self <= len (AIAgent.prices self))%Z ->
  (0 < AIAgent.long_window self <= len (AIAgent.prices self))%Z ->
  from_end 0 (AIAgent.prices self) = Some cur ->
  from_end 1 (AIAgent.prices self) = Some prev ->
  exists r,
    AIAgent.get_recommendation now self = (Returned r, self)
    /\ decided now cur prev
         (np_mean (last_n (Z.to_nat (AIAgent.short_window self)) (AIAgent.prices self)))
         (np_mean (last_n (Z.to_nat (AIAgent.long_window self)) (AIAgent.prices self)))
         r.
Proof.
  intros Hsw Hlw Hcur Hprev.
  assert (Hlast : getitem (AIAgent.prices self) (-1) = Returned cur)
    by exact (getitem_from_end _ 0%nat _ Hcur).
  assert (Hbefore : getitem (AIAgent.prices self) (-2) = Returned prev)
    by exact (getitem_from_end _ 1%nat _ Hprev).
  unfold AIAgent.get_recommendation, Py.bind at 1 2, gets at 1 2.
  destruct (Z.ltb_spec (len (AIAgent.prices self)) (AIAgent.long_window self))
    as [Hlt | _]; [lia |].
  unfold Py.bind at 1 2, gets at 1, lift_outcome at 1. rewrite Hlast.
  unfold Py.bind at 1 2, gets at 1, lift_outcome at 1. rewrite Hbefore.
  unfold Py.bind at 1 2, gets at 1.
  rewrite (calculate_moving_average_enough self _ Hsw).
  unfold Py.bind at 1 2, gets at 1.
  rewrite (calculate_moving_average_enough self _ Hlw).
  unfold decided, ret.
  set (sm := np_mean (last_n (Z.to_nat (AIAgent.short_window self)) _)).
  set (lm := np_mean (last_n (Z.to_nat (AIAgent.long_window self)) _)).
  destruct (lt lm sm && lt prev cur) eqn:Hbuy.
  - eexists. split; [reflexivity |]. simpl. repeat split; reflexivity.
  - destruct (lt sm lm && lt cur prev) eqn:Hsell.
    + eexists. split; [reflexivity |]. simpl. repeat split; reflexivity.
    + eexists. split; [reflexivity |]. simpl. repeat split; reflexivity.
Qed.

End EngineFacts.

Lemma last_n_length {A} (n : nat) (l : list A) :
  (n <= List.length l)%nat -> List.length (last_n n l) = n.
Proof. intros Hn. unfold last_n. rewrite length_skipn. lia. Qed.

(** ** Summation *)

Section NumpyFacts.
Context {num : Type} `{Arith num}.

Lemma half_point_inside (n : nat) :
  (PW_BLOCKSIZE < n)%nat -> (0 < half_point n < n)%nat.
Proof.
  unfold half_point, PW_BLOCKSIZE. intros Hn.
  pose proof (Nat.mod_upper_bound (n / 2) 8 ltac:(lia)).
  pose proof (Nat.div_mod_eq n 2).
  pose proof (Nat.mod_upper_bound n 2 ltac:(lia)). lia.
Qed.

(** Any depth that is at least the number of items gives the same sum. *)
Lemma pairwise_sum_depth (d d' : nat) (l : list num) :
  (List.length l <= d)%nat -> (List.length l <= d')%nat ->
  pairwise_sum d l = pairwise_sum d' l.
Proof.
  revert d' l. induction d as [| d IH]; intros d' l Hd Hd'.
  - destruct l; [| simpl in Hd; lia]. destruct d'; reflexivity.
  - destruct d' as [| d'].
    + destruct l; [| simpl in Hd'; lia]. reflexivity.
    + cbn [pairwise_sum].
      destruct (Nat.ltb_spec (List.length l) 8) as [| H8]; [reflexivity |].
      destruct (Nat.leb_spec (List.length l) PW_BLOCKSIZE) as [| Hbig]; [reflexivity |].
      pose proof (half_point_inside _ Hbig) as Hhalf.
      rewrite (IH d' (firstn _ l)), (IH d' (skipn _ l)); try reflexivity;
        rewrite ?length_firstn, ?length_skipn; lia.
Qed.

(** [np_sum] never runs out of depth: it is the sum in order below eight
    items, the unrolled sum up to [PW_BLOCKSIZE] items, and above that the
    sum of the sums of its two parts. *)
Lemma np_sum_eq (l : list num) :
  np_sum l
  = let n := List.length l in
    if (n <? 8)%nat then sum_in_order l
    else if (n <=? PW_BLOCKSIZE)%nat then sum_unrolled l
    else add (np_sum (firstn (half_point n) l)) (np_sum (skipn (half_point n) l)).
Proof.
  unfold np_sum. cbv zeta.
  destruct (List.length l) as [| d] eqn:Hlen.
  - destruct l; [reflexivity | discriminate].
  - cbn [pairwise_sum]. rewrite Hlen.
    destruct (Nat.ltb_spec (S d) 8) as [| H8]; [reflexivity |].
    destruct (Nat.leb_spec (S d) PW_BLOCKSIZE) as [| Hbig]; [reflexivity |].
    pose proof (half_point_inside _ Hbig) as Hhalf.
    f_equal; apply pairwise_sum_depth;
      rewrite ?length_firstn, ?length_skipn; lia.
Qed.

End NumpyFacts.

(** ** Comparison in binary64 *)

(** [a < b] and [b < a] never both hold, NaN and signed zeros included. *)
Lemma SFltb_asym (x y : SpecFloat.spec_float) :
  SFltb x y = true -> SFltb y x = false.
Proof.
  unfold SFltb, SFcompare.
  destruct x as [sx | sx | | sx mx ex], y as [sy | sy | | sy my ey];
    try destruct sx; try destruct sy; try discriminate; try reflexivity.
  all: rewrite (Z.compare_antisym ex ey);
       change (Pos.compare_cont Eq my mx) with (Pos.compare_cont (CompOpp Eq) my mx);
       rewrite <- (Pos.compare_cont_antisym mx my Eq).
  all: destruct (ex ?= ey)%Z eqn:He; simpl; try discriminate; try reflexivity.
  all: destruct (Pos.compare_cont Eq mx my) eqn:Hm; simpl; try discriminate; try reflexivity.
Qed.

Lemma float_lt_asym (x y : float) :
  PrimFloat.ltb x y = true -> PrimFloat.ltb y x = false.
Proof. rewrite !ltb_spec. apply SFltb_asym. Qed.

(** ** The claims about the indicator engine *)

Section EngineClaims.
Local Open Scope Q_scope.
Local Set Warnings "-inexact-float".

(** C1, as stated, fails in two ways.  It asks nothing of the windows:
    with both windows 1 and the single price 1.0 the history is as long as
    [long_window], and [get_recommendation] raises IndexError at
    [self.prices[-2]] instead of returning an action.  And the averages the
    code compares are not the arithmetic means of the prices: with windows
    2 and 3 and the prices 1.1, 0.9, 1.3 the answer is buy, with take
    profit 1.3650000000000002, although the arithmetic mean of the last two
    prices is below that of the last three. *)
Lemma recommendation_is_not_decided_by_exact_means :
  (let self := {| AIAgent.short_window := 1; AIAgent.long_window := 1;
                  AIAgent.prices := [1.0%float] |} in
   (AIAgent.long_window self <= len (AIAgent.prices self))%Z
   /\ AIAgent.get_recommendation "t1" self
      = (Raised (Exn "IndexError" "list index out of range"), self))
  /\ (let ps := [1.1; 0.9; 1.3]%float in
      let self := {| AIAgent.short_window := 2; AIAgent.long_window := 3;
                     AIAgent.prices := ps |} in
      (0 < AIAgent.short_window self < AIAgent.long_window self)%Z
      /\ (AIAgent.long_window self <= len (AIAgent.prices self))%Z
      /\ exists r exact,
           AIAgent.get_recommendation "t3" self = (Returned r, self)
           /\ action r = buy
           /\ take_profit r = Some 1.3650000000000002%float
           /\ map Binary64.to_Q ps = map Some exact
           /\ arithmetic_mean (last_n 2 exact) < arithmetic_mean (last_n 3 exact)).
Proof.
  split.
  - split; [vm_compute; discriminate | vm_compute; reflexivity].
  - split; [simpl; lia |]. split; [vm_compute; discriminate |].
    eexists.
    exists ltac:(let e := eval vm_compute in (omap Binary64.to_Q [1.1; 0.9; 1.3]%float)
                 in exact e).
    split; [vm_compute; reflexivity |].
    split; [reflexivity |]. split; [reflexivity |].
    split; [vm_compute; reflexivity |].
    vm_compute. reflexivity.
Qed.

(** C1, amended.  In any arithmetic whose [<] never holds both ways, with
    valid windows ([0 < short_window < long_window]) and at least
    [long_window] prices, [get_recommendation] returns, and it decides on
    the two averages [calculate_moving_average] returns, which are
    [np.mean] of the last [short_window] and of the last [long_window]
    prices as that arithmetic computes them: buy exactly when
    [short_ma > long_ma] and [p_t > p_prev], then with entry price [p_t]
    and take profit the product [p_t * 1.05] of that arithmetic; sell
    exactly when [short_ma < long_ma] and [p_t < p_prev], then with entry
    price [p_t] and take profit [p_t * 0.95]; hold exactly when neither
    holds, then with neither entry price nor take profit. *)
Theorem recommendation_follows_computed_averages {num : Type} `{Arith num}
    (self : AIAgent.t num) (now : string) :
  (forall a b : num, lt a b = true -> lt b a = false) ->
  (0 < AIAgent.short_window self < AIAgent.long_window self)%Z ->
  (AIAgent.long_window self <= len (AIAgent.prices self))%Z ->
  exists p_t p_prev short_ma long_ma r,
    from_end 0 (AIAgent.prices self) = Some p_t
    /\ from_end 1 (AIAgent.prices self) = Some p_prev
    /\ AIAgent.calculate_moving_average (AIAgent.short_window self) self
       = (Returned (Some short_ma), self)
    /\ short_ma
       = np_mean (last_n (Z.to_nat (AIAgent.short_window self)) (AIAgent.prices self))
    /\ AIAgent.calculate_moving_average (AIAgent.long_window self) self
       = (Returned (Some long_ma), self)
    /\ long_ma
       = np_mean (last_n (Z.to_nat (AIAgent.long_window self)) (AIAgent.prices self))
    /\ AIAgent.get_recommendation now self = (Returned r, self)
    /\ (action r = buy <-> lt long_ma short_ma = true /\ lt p_prev p_t = true)
    /\ (action r = buy ->
        entry_price r = Some p_t /\ take_profit r = Some (mul p_t f1_05))
    /\ (action r = sell <-> lt short_ma long_ma = true /\ lt p_t p_prev = true)
    /\ (action r = sell ->
        entry_price r = Some p_t /\ take_profit r = Some (mul p_t f0_95))
    /\ (action r = hold <->
        ~ (lt long_ma short_ma = true /\ lt p_prev p_t = true)
        /\ ~ (lt short_ma long_ma = true /\ lt p_t p_prev = true))
    /\ (action r = hold -> entry_price r = None /\ take_profit r = None).
Proof.
  intros Hasym Hwin Hlen.
  assert (Hn : (2 <= List.length (AIAgent.prices self))%nat)
    by (unfold len in Hlen; lia).
  destruct (from_end_is_Some (AIAgent.prices self) 0) as [p_t Ht]; [lia |].
  destruct (from_end_is_Some (AIAgent.prices self) 1) as [p_prev Hprev]; [lia |].
  destruct (get_recommendation_enough self now p_t p_prev) as (r & Hcall & _ & _ & Hrule);
    [lia | lia | exact Ht | exact Hprev |].
  exists p_t, p_prev. do 2 eexists. exists r.
  split; [exact Ht |]. split; [exact Hprev |].
  split; [apply calculate_moving_average_enough; lia |]. split; [reflexivity |].
  split; [apply calculate_moving_average_enough; lia |]. split; [reflexivity |].
  split; [exact Hcall |].
  set (short_ma := np_mean (last_n (Z.to_nat (AIAgent.short_window self)) _)) in *.
  set (long_ma := np_mean (last_n (Z.to_nat (AIAgent.long_window self)) _)) in *.
  destruct (lt long_ma short_ma) eqn:Hup; destruct (lt p_prev p_t) eqn:Hrise;
    cbn [andb] in Hrule.
  1: { destruct Hrule as (Ha & He & Htp). rewrite (Hasym _ _ Hup), Ha, He, Htp.
       repeat split; intros; try discriminate; try tauto;
         try (destruct_and?; discriminate). }
  all: destruct (lt short_ma long_ma) eqn:Hdown; destruct (lt p_t p_prev) eqn:Hfall;
    cbn [andb] in Hrule.
  all: try (destruct Hrule as (Ha & He & Htp); rewrite Ha, He, Htp;
            repeat split; intros; try discriminate; try tauto;
            try (destruct_and?; discriminate); fail).
  all: try (destruct Hrule as (Ha & He & Htp & _); rewrite Ha, He, Htp;
            repeat split; intros; try discriminate; try tauto;
            try (destruct_and?; discriminate); try (intros [? ?]; discriminate); fail).
Qed.

(** Witness of C1: the six-tick scenario in binary64, whose comparison is
    that of IEEE 754. *)
Lemma recommendation_follows_computed_averages_witness :
  let self := scenario_engine_binary64 in
  (forall a b : float, lt a b = true -> lt b a = false)
  /\ (0 < AIAgent.short_window self < AIAgent.long_window self)%Z
  /\ (AIAgent.long_window self <= len (AIAgent.prices self))%Z
  /\ exists p_t p_prev short_ma long_ma r,
       from_end 0 (AIAgent.prices self) = Some p_t
       /\ from_end 1 (AIAgent.prices self) = Some p_prev
       /\ AIAgent.calculate_moving_average (AIAgent.short_window self) self
          = (Returned (Some short_ma), self)
       /\ short_ma
          = np_mean (last_n (Z.to_nat (AIAgent.short_window self)) (AIAgent.prices self))
       /\ AIAgent.calculate_moving_average (AIAgent.long_window self) self
          = (Returned (Some long_ma), self)
       /\ long_ma
          = np_mean (last_n (Z.to_nat (AIAgent.long_window self)) (AIAgent.prices self))
       /\ AIAgent.get_recommendation "t6" self = (Returned r, self)
       /\ (action r = buy <-> lt long_ma short_ma = true /\ lt p_prev p_t = true)
       /\ (action r = buy ->
           entry_price r = Some p_t /\ take_profit r = Some (mul p_t f1_05))
       /\ (action r = sell <-> lt short_ma long_ma = true /\ lt p_t p_prev = true)
       /\ (action r = sell ->
           entry_price r = Some p_t /\ take_profit r = Some (mul p_t f0_95))
       /\ (action r = hold <->
           ~ (lt long_ma short_ma = true /\ lt p_prev p_t = true)
           /\ ~ (lt short_ma long_ma = true /\ lt p_t p_prev = true))
       /\ (action r = hold -> entry_price r = None /\ take_profit r = None).
Proof.
  intros self.
  split; [exact float_lt_asym |].
  split; [simpl; lia |]. split; [vm_compute; discriminate |].
  apply (recommendation_follows_computed_averages self "t6").
  - exact float_lt_asym.
  - simpl. lia.
  - vm_compute. discriminate.
Defined.

(** C2.  With fewer than [long_window] prices, [get_recommendation] answers
    hold with confidence 0.0, the "Insufficient data" reasoning and neither
    entry price nor take profit, for any arithmetic and any windows. *)
Theorem insufficient_data_holds {num : Type} `{Arith num}
    (self : AIAgent.t num) (now : string) :
  (len (AIAgent.prices self) < AIAgent.long_window self)%Z ->
  exists r,
    AIAgent.get_recommendation now self = (Returned r, self)
    /\ action r = hold
    /\ confidence r = f0_0
    /\ reasoning r = "Insufficient data for prediction"%string
    /\ entry_price r = None
    /\ take_profit r = None.
Proof.
  intros Hshort.
  unfold AIAgent.get_recommendation, Py.bind, gets.
  destruct (Z.ltb_spec (len (AIAgent.prices self)) (AIAgent.long_window self))
    as [_ | Hge]; [| lia].
  eexists. split; [reflexivity |]. repeat split.
Qed.

(** Witness of C2: three prices under the default windows. *)
Lemma insufficient_data_holds_witness :
  let self := {| AIAgent.short_window := AIAgent.default_short_window;
                 AIAgent.long_window := AIAgent.default_long_window;
                 AIAgent.prices := [1.0; 1.1; 1.2] |} in
  (len (AIAgent.prices self) < AIAgent.long_window self)%Z
  /\ exists r,
       AIAgent.get_recommendation "t3" self = (Returned r, self)
       /\ action r = hold
       /\ confidence r = 0.0
       /\ reasoning r = "Insufficient data for prediction"%string
       /\ entry_price r = None
       /\ take_profit r = None.
Proof.
  intros self. split; [reflexivity |].
  exact (insufficient_data_holds self "t3" eq_refl).
Defined.

(** C3, as stated, fails in two ways.  With valid windows 2 and 4 and
    the single positive price 1.0 the confidence is 0.0, below 0.5.  And
    with at least [long_window] prices it is not the clamp of the
    divergence of the arithmetic means: on the four positive prices 6e307,
    6e307, 6e307 and 6.1e307 the sum for the long average overflows, the
    divergence is not a number and the confidence is 0.5, where
    [clamp(0.7 + |short_ma - long_ma| / long_ma, 0.5, 0.95)] of the
    arithmetic means is between 0.704 and 0.705. *)
Lemma confidence_outside_the_clamp :
  (let self := {| AIAgent.short_window := 2; AIAgent.long_window := 4;
                  AIAgent.prices := [1.0%float] |} in
   (0 < AIAgent.short_window self < AIAgent.long_window self)%Z
   /\ Forall (fun p => PrimFloat.ltb 0 p = true) (AIAgent.prices self)
   /\ exists r,
        AIAgent.get_recommendation "t1" self = (Returned r, self)
        /\ confidence r = 0%float
        /\ PrimFloat.ltb (confidence r) 0.5 = true)
  /\ (let ps := [6e307; 6e307; 6e307; 6.1e307]%float in
      let self := {| AIAgent.short_window := 2; AIAgent.long_window := 4;
                     AIAgent.prices := ps |} in
      (0 < AIAgent.short_window self < AIAgent.long_window self)%Z
      /\ (AIAgent.long_window self <= len (AIAgent.prices self))%Z
      /\ Forall (fun p => PrimFloat.ltb 0 p = true) (AIAgent.prices self)
      /\ exists r exact,
           AIAgent.get_recommendation "t4" self = (Returned r, self)
           /\ confidence r = 0.5%float
           /\ map Binary64.to_Q ps = map Some exact
           /\ let short_ma := arithmetic_mean (last_n 2 exact) in
              let long_ma := arithmetic_mean (last_n 4 exact) in
              0.704 < clamp (0.7 + Qabs (short_ma - long_ma) / long_ma) 0.5 0.95 < 0.705).
Proof.
  split.
  - split; [simpl; lia |]. split; [repeat constructor |].
    eexists. split; [vm_compute; reflexivity |]. split; reflexivity.
  - split; [simpl; lia |]. split; [vm_compute; discriminate |].
    split; [repeat constructor |].
    eexists.
    exists ltac:(let e := eval vm_compute in
                   (omap Binary64.to_Q [6e307; 6e307; 6e307; 6.1e307]%float)
                 in exact e).
    split; [vm_compute; reflexivity |]. split; [reflexivity |].
    split; [vm_compute; reflexivity |].
    split; vm_compute; reflexivity.
Qed.

(** C3, amended.  With valid windows [get_recommendation] returns for
    every history.  With fewer than [long_window] prices the confidence is
    0.0.  With at least [long_window] prices it is
    [min(0.95, max(0.5, 0.7 + abs(short_ma - long_ma) / long_ma))] as
    Python's [min] and [max] and the arithmetic at hand compute it on the
    two [np.mean] averages, and that value is 0.5, 0.95 or strictly between
    the two. *)
Theorem confidence_is_clamped_computed_divergence {num : Type} `{Arith num}
    (self : AIAgent.t num) (now : string) :
  (0 < AIAgent.short_window self < AIAgent.long_window self)%Z ->
  exists r,
    AIAgent.get_recommendation now self = (Returned r, self)
    /\ ((len (AIAgent.prices self) < AIAgent.long_window self)%Z ->
        confidence r = f0_0)
    /\ ((AIAgent.long_window self <= len (AIAgent.prices self))%Z ->
        let short_ma :=
          np_mean (last_n (Z.to_nat (AIAgent.short_window self)) (AIAgent.prices self)) in
        let long_ma :=
          np_mean (last_n (Z.to_nat (AIAgent.long_window self)) (AIAgent.prices self)) in
        confidence r
        = Py.min lt f0_95
            (Py.max lt f0_5 (add f0_7 (div (abs (sub short_ma long_ma)) long_ma)))
        /\ (confidence r = f0_5 \/ confidence r = f0_95
            \/ (lt f0_5 (confidence r) = true /\ lt (confidence r) f0_95 = true))).
Proof.
  intros Hwin.
  destruct (Z.ltb_spec (len (AIAgent.prices self)) (AIAgent.long_window self))
    as [Hshort | Hlong].
  - eexists. split.
    + unfold AIAgent.get_recommendation, Py.bind, gets.
      apply Z.ltb_lt in Hshort. rewrite Hshort. reflexivity.
    + simpl. split; [reflexivity | lia].
  - assert (Hn : (2 <= List.length (AIAgent.prices self))%nat)
      by (unfold len in Hlong; lia).
    destruct (from_end_is_Some (AIAgent.prices self) 0) as [cur Hcur]; [lia |].
    destruct (from_end_is_Some (AIAgent.prices self) 1) as [prev Hprev]; [lia |].
    destruct (get_recommendation_enough self now cur prev) as (r & Hcall & _ & Hconf & _);
      [lia | lia | exact Hcur | exact Hprev |].
    exists r. split; [exact Hcall |]. split; [lia |].
    intros _ short_ma long_ma. split; [exact Hconf |].
    rewrite Hconf. fold short_ma long_ma.
    generalize (add f0_7 (div (abs (sub short_ma long_ma)) long_ma)). intros x.
    unfold Py.min, Py.max.
    destruct (lt f0_5 x) eqn:Hlow.
    + destruct (lt x f0_95) eqn:Hhigh; auto.
    + destruct (lt f0_5 f0_95); auto.
Qed.

(** Witness of C3: the six-tick scenario in binary64. *)
Lemma confidence_is_clamped_computed_divergence_witness :
  let self := scenario_engine_binary64 in
  (0 < AIAgent.short_window self < AIAgent.long_window self)%Z
  /\ exists r,
       AIAgent.get_recommendation "t6" self = (Returned r, self)
       /\ ((len (AIAgent.prices self) < AIAgent.long_window self)%Z ->
           confidence r = f0_0)
       /\ ((AIAgent.long_window self <= len (AIAgent.prices self))%Z ->
           let short_ma :=
             np_mean (last_n (Z.to_nat (AIAgent.short_window self)) (AIAgent.prices self)) in
           let long_ma :=
             np_mean (last_n (Z.to_nat (AIAgent.long_window self)) (AIAgent.prices self)) in
           confidence r
           = Py.min lt f0_95
               (Py.max lt f0_5 (add f0_7 (div (abs (sub short_ma long_ma)) long_ma)))
           /\ (confidence r = f0_5 \/ confidence r = f0_95
               \/ (lt f0_5 (confidence r) = true /\ lt (confidence r) f0_95 = true))).
Proof.
  intros self. split; [simpl; lia |].
  apply (confidence_is_clamped_computed_divergence self "t6"). simpl. lia.
Defined.

(** C7, as stated, fails on the long average: the last four ticks are
    1.0, 1.0, 1.1 and 1.2, whose mean is 1.075; it is not 1.05 to within
    one unit of the last decimal given. *)
Lemma scenario_long_ma_is_not_1_05 :
  exists long_ma,
    AIAgent.calculate_moving_average 4 scenario_engine
    = (Returned (Some long_ma), scenario_engine)
    /\ long_ma == 1.075
    /\ ~ approx 0.01 long_ma 1.05.
Proof.
  eexists. split; [reflexivity |]. split.
  - vm_compute. reflexivity.
  - unfold approx. vm_compute. intros Hle. apply Hle. reflexivity.
Qed.

(** C7, amended.  The engine built with windows 2 and 4 and fed the six
    ticks has short average 1.15 and long average 1.075, and answers buy
    with entry price 1.2 and take profit 1.26. *)
Theorem scenario_recommends_buy (now : string) :
  AIAgent.__init__ 2 4
  = Returned {| AIAgent.short_window := 2; AIAgent.long_window := 4;
                AIAgent.prices := @nil Q |}
  /\ AIAgent.prices scenario_engine = scenario_ticks
  /\ exists short_ma long_ma r tp,
       AIAgent.calculate_moving_average 2 scenario_engine
       = (Returned (Some short_ma), scenario_engine)
       /\ short_ma == 1.15
       /\ AIAgent.calculate_moving_average 4 scenario_engine
          = (Returned (Some long_ma), scenario_engine)
       /\ long_ma == 1.075
       /\ AIAgent.get_recommendation now scenario_engine
          = (Returned r, scenario_engine)
       /\ action r = buy
       /\ entry_price r = Some 1.2
       /\ take_profit r = Some tp
       /\ tp == 1.26.
Proof.
  split; [reflexivity |]. split; [reflexivity |].
  do 4 eexists.
  split; [reflexivity |]. split; [vm_compute; reflexivity |].
  split; [reflexivity |]. split; [vm_compute; reflexivity |].
  split; [reflexivity |]. split; [reflexivity |].
  split; [reflexivity |]. split; [reflexivity |].
  vm_compute. reflexivity.
Qed.

(** C8, as stated, fails: a zero window and inverted windows are both
    accepted. *)
Lemma construction_accepts_invalid_windows :
  (exists engine : AIAgent.t Q, AIAgent.__init__ 0 200 = Returned engine)
  /\ (exists engine : AIAgent.t Q, AIAgent.__init__ 200 50 = Returned engine)
  /\ ~ (forall short_window long_window : Z,
          (short_window <= 0 \/ long_window <= 0 \/ long_window <= short_window)%Z ->
          exists e, AIAgent.__init__ (num := Q) short_window long_window = Raised e).
Proof.
  split; [eexists; reflexivity |]. split; [eexists; reflexivity |].
  intros Hfails. destruct (Hfails 0%Z 200%Z) as [e He]; [lia |].
  discriminate He.
Qed.

(** C8, amended.  The constructor checks nothing: for any two window
    sizes it returns an engine that holds exactly those sizes and an empty
    price series. *)
Theorem construction_never_fails {num : Type} `{Arith num}
    (short_window long_window : Z) :
  exists engine : AIAgent.t num,
    AIAgent.__init__ short_window long_window = Returned engine
    /\ AIAgent.short_window engine = short_window
    /\ AIAgent.long_window engine = long_window
    /\ AIAgent.prices engine = [].
Proof. eexists. split; [reflexivity |]. repeat split. Qed.

(** C9.  [get_recommendation] leaves the engine as it found it (prices and
    both windows), so any series of calls sees the same engine, and each
    call answers what a single call on that engine answers. *)
Theorem get_recommendation_is_a_query {num : Type} `{Arith num}
    (self : AIAgent.t num) :
  (forall now,
     let self' := snd (AIAgent.get_recommendation now self) in
     self' = self
     /\ AIAgent.prices self' = AIAgent.prices self
     /\ AIAgent.short_window self' = AIAgent.short_window self
     /\ AIAgent.long_window self' = AIAgent.long_window self)
  /\ (forall nows,
        snd (poll nows self) = self
        /\ fst (poll nows self)
           = map (fun now => fst (AIAgent.get_recommendation now self)) nows).
Proof.
  split.
  - intros now self'. subst self'.
    rewrite (get_recommendation_read_only now self). repeat split.
  - intros nows. induction nows as [| now rest IH]; simpl.
    + split; reflexivity.
    + pose proof (get_recommendation_read_only now self) as Hro.
      destruct (AIAgent.get_recommendation now self) as [r self'] eqn:Hcall.
      simpl in Hro. subst self'.
      destruct (poll rest self) as [rs self''] eqn:Hpoll.
      simpl in IH. destruct IH as [Hstate Hanswers]. simpl.
      split; [exact Hstate | rewrite Hanswers; reflexivity].
Qed.

End EngineClaims.

(** The six-tick scenario replayed in binary64: the same answer, with the
    long average 1.075 and the take profit 1.26 as floats. *)
Section Binary64Scenario.
Local Set Warnings "-inexact-float".

Lemma scenario_in_binary64 :
  let engine :=
    add_prices [1.0; 1.0; 1.0; 1.0; 1.1; 1.2]%float
      {| AIAgent.short_window := 2; AIAgent.long_window := 4; AIAgent.prices := [] |} in
  AIAgent.calculate_moving_average 2 engine = (Returned (Some 1.15%float), engine)
  /\ AIAgent.calculate_moving_average 4 engine = (Returned (Some 1.075%float), engine)
  /\ exists r,
       AIAgent.get_recommendation "t6" engine = (Returned r, engine)
       /\ action r = buy
       /\ entry_price r = Some 1.2%float
       /\ take_profit r = Some 1.26%float
       /\ reasoning r
          = "Short-term MA (1.15) above long-term MA (1.07), price increasing"%string.
Proof.
  intros engine. split; [vm_compute; reflexivity |]. split; [vm_compute; reflexivity |].
  eexists. split; [vm_compute; reflexivity |]. repeat split.
Qed.

End Binary64Scenario.

(** ** The feed loop *)

Section FeedFacts.
Import ProfessionalTradingStrategy.
Context {num : Type} `{Arith num}.
Variable float_of_str : string -> option num.
Local Open Scope Z_scope.

Lemma count_connects_app (effs effs' : list effect) :
  count_connects (effs ++ effs') = (count_connects effs + count_connects effs')%nat.
Proof. unfold count_connects. rewrite filter_app, length_app. reflexivity. Qed.

Lemma loop_head_inv (self : t num) (n : Z) (effs : list effect) :
  0 <= n <= MAX_RECONNECT_ATTEMPTS ->
  Z.of_nat (count_connects effs) = n ->
  feed_inv (loop_head self n effs).
Proof.
  intros Hn Hc. unfold loop_head, feed_inv, connect_calls.
  destruct (Z.ltb_spec n MAX_RECONNECT_ATTEMPTS) as [Hlt | Hge];
    unfold MAX_RECONNECT_ATTEMPTS in *; simpl.
  - right. split; [discriminate |]. split; [lia |].
    rewrite count_connects_app. change (count_connects [Connect]) with 1%nat. lia.
  - left. split; [reflexivity |]. split; [lia |].
    rewrite count_connects_app. change (count_connects [LogError _]) with 0%nat. lia.
Qed.

Lemma loop_head_attempts (self : t num) (n : Z) (effs : list effect) :
  reconnect_attempts (loop_head self n effs) = n.
Proof. unfold loop_head. destruct (n <? MAX_RECONNECT_ATTEMPTS); reflexivity. Qed.

Lemma start_inv (self : t num) : feed_inv (start self).
Proof. apply loop_head_inv; [unfold MAX_RECONNECT_ATTEMPTS; lia | reflexivity]. Qed.

Lemma on_exception_attempts (f : feed num) (self' : t num) (e : exn) :
  reconnect_attempts (on_exception f self' e) = reconnect_attempts f + 1.
Proof. apply loop_head_attempts. Qed.

Lemma on_exception_inv (f : feed num) (self' : t num) (e : exn) :
  feed_inv f -> at_phase f <> ReturnedFalse -> feed_inv (on_exception f self' e).
Proof.
  intros [(Hret & _) | (_ & Hn & Hc)] Hsusp; [contradiction |].
  unfold on_exception. apply loop_head_inv; [lia |].
  unfold connect_calls in Hc. rewrite !count_connects_app.
  change (count_connects [LogError _; Sleep _]) with 0%nat.
  destruct (at_phase f);
    [ change (count_connects []) with 0%nat
    | change (count_connects [Close]) with 0%nat
    | change (count_connects [Close]) with 0%nat
    | change (count_connects []) with 0%nat ]; lia.
Qed.

(** A step keeps the invariant and never lowers the counter. *)
Lemma step_inv (f f' : feed num) (ev : net_event num) :
  feed_inv f -> step float_of_str f ev = Some f' ->
  feed_inv f' /\ reconnect_attempts f <= reconnect_attempts f'.
Proof.
  intros Hinv Hstep. unfold step in Hstep.
  assert (Hexn : forall self' e,
             at_phase f <> ReturnedFalse ->
             feed_inv (on_exception f self' e)
             /\ reconnect_attempts f <= reconnect_attempts (on_exception f self' e)).
  { intros self' e Hsusp. split; [apply on_exception_inv; assumption |].
    rewrite on_exception_attempts. lia. }
  assert (Hsame : forall self' ph effs,
             ph <> ReturnedFalse ->
             at_phase f <> ReturnedFalse ->
             count_connects effs = count_connects (effects f) ->
             feed_inv (num := num)
               {| self := self'; reconnect_attempts := reconnect_attempts f;
                  at_phase := ph; effects := effs |}
             /\ reconnect_attempts f <= reconnect_attempts f).
  { intros self' ph effs Hph Hsusp Heffs. split; [| lia].
    destruct Hinv as [(Hret & _) | (_ & Hn & Hc)]; [contradiction |].
    right. unfold connect_calls in *. simpl. rewrite Heffs. auto. }
  destruct (at_phase f) eqn:Hph, ev as [ws | e | | e | [data | e] | e];
    try discriminate Hstep.
  - injection Hstep as <-. apply Hsame; try discriminate.
    rewrite count_connects_app. change (count_connects [Send _ _]) with 0%nat. lia.
  - injection Hstep as <-. apply Hexn. discriminate.
  - injection Hstep as <-. apply Hsame; try discriminate. reflexivity.
  - injection Hstep as <-. apply Hexn. discriminate.
  - destruct (on_message float_of_str data (self f)) as [[[] | e] self'];
      injection Hstep as <-.
    + apply Hsame; try discriminate. reflexivity.
    + apply Hexn. discriminate.
  - injection Hstep as <-. apply Hexn. discriminate.
  - injection Hstep as <-. apply Hexn. discriminate.
Qed.

Lemma run_inv (evs : list (net_event num)) (f f' : feed num) :
  feed_inv f -> run float_of_str f evs = Some f' ->
  feed_inv f' /\ reconnect_attempts f <= reconnect_attempts f'.
Proof.
  revert f. induction evs as [| ev rest IH]; intros f Hinv Hrun; simpl in Hrun.
  - injection Hrun as <-. split; [assumption | lia].
  - destruct (step float_of_str f ev) as [f1 |] eqn:Hstep; [| discriminate].
    destruct (step_inv f f1 ev Hinv Hstep) as [Hinv1 Hle1].
    destruct (IH f1 Hinv1 Hrun) as [Hinv' Hle'].
    split; [assumption | lia].
Qed.

(** After [return False] the coroutine waits for nothing. *)
Lemma returned_is_final (f : feed num) (ev : net_event num) :
  at_phase f = ReturnedFalse -> step float_of_str f ev = None.
Proof. intros Hret. unfold step. rewrite Hret. reflexivity. Qed.

Lemma returned_run (f f' : feed num) (evs : list (net_event num)) :
  at_phase f = ReturnedFalse -> run float_of_str f evs = Some f' ->
  evs = [] /\ f' = f.
Proof.
  intros Hret Hrun. destruct evs as [| ev rest]; simpl in Hrun.
  - injection Hrun as <-. split; reflexivity.
  - rewrite (returned_is_final f ev Hret) in Hrun. discriminate.
Qed.

(** A successful connect leaves the counter where it was. *)
Lemma connect_ok_keeps_attempts (f f' : feed num) (ws : nat) :
  step float_of_str f (ConnectOk ws) = Some f' ->
  reconnect_attempts f' = reconnect_attempts f /\ at_phase f' = Subscribing.
Proof.
  unfold step. destruct (at_phase f); try discriminate.
  intros Hstep. injection Hstep as <-. split; reflexivity.
Qed.

End FeedFacts.

(** ** The claims about the feed loop *)

Section FeedClaims.
Import ProfessionalTradingStrategy.
Local Open Scope Z_scope.

Lemma devnet_strategy_init : __init__ "devnet" = Returned devnet_strategy.
Proof. reflexivity. Qed.

Lemma subscribed_feed_reached :
  run no_float_of_str (start devnet_strategy) [ConnectOk 1; SendOk] = Some subscribed_feed.
Proof. vm_compute. reflexivity. Qed.

(** C4, as stated, fails on the reset: after one refused connect and a
    successful one the counter is 1, not 0; and five connections that were
    each established and later lost end the loop. *)
Lemma counter_survives_successful_reconnect :
  (exists f,
      run no_float_of_str (start devnet_strategy)
        [ConnectRaises (Exn "OSError" "connection refused"); ConnectOk 1; SendOk] = Some f
      /\ at_phase f = Receiving
      /\ reconnect_attempts f = 1
      /\ reconnect_attempts f <> 0)
  /\ (exists f,
         run no_float_of_str (start devnet_strategy)
           (dropped_session 1 ++ dropped_session 2 ++ dropped_session 3
            ++ dropped_session 4 ++ dropped_session 5) = Some f
         /\ at_phase f = ReturnedFalse
         /\ reconnect_attempts f = MAX_RECONNECT_ATTEMPTS).
Proof.
  split.
  - eexists. split; [cbv; reflexivity |]. repeat split. discriminate.
  - eexists. split; [cbv; reflexivity |]. split; reflexivity.
Qed.

(** C4, amended.  Between any two awaits of the loop the counter is at
    most [MAX_RECONNECT_ATTEMPTS] and so is the number of connects; a
    successful connect leaves the counter as it is and nothing ever lowers
    it; and once it has reached the maximum the loop has returned [False]
    and waits for no further answer of the network. *)
Theorem reconnect_attempts_bounded_and_final {num : Type} `{Arith num}
    (float_of_str : string -> option num)
    (self0 : t num) (evs : list (net_event num)) (f : feed num) :
  run float_of_str (start self0) evs = Some f ->
  0 <= reconnect_attempts f <= MAX_RECONNECT_ATTEMPTS
  /\ Z.of_nat (connect_calls f) <= MAX_RECONNECT_ATTEMPTS
  /\ (forall ws f',
        step float_of_str f (ConnectOk ws) = Some f' ->
        reconnect_attempts f' = reconnect_attempts f)
  /\ (forall evs' f',
        run float_of_str f evs' = Some f' ->
        reconnect_attempts f <= reconnect_attempts f')
  /\ (reconnect_attempts f = MAX_RECONNECT_ATTEMPTS ->
      at_phase f = ReturnedFalse
      /\ forall ev, step float_of_str f ev = None).
Proof.
  intros Hrun.
  destruct (run_inv float_of_str evs (start self0) f (start_inv self0) Hrun)
    as [Hinv _].
  split; [| split; [| split; [| split]]].
  - destruct Hinv as [(_ & Hn & _) | (_ & Hn & _)];
      unfold MAX_RECONNECT_ATTEMPTS in *; lia.
  - destruct Hinv as [(_ & _ & Hc) | (_ & Hn & Hc)]; lia.
  - intros ws f' Hstep.
    apply (connect_ok_keeps_attempts float_of_str f f' ws Hstep).
  - intros evs' f' Hrun'.
    apply (run_inv float_of_str evs' f f' Hinv Hrun').
  - intros Hmax.
    destruct Hinv as [(Hret & _) | (_ & Hn & _)]; [| lia].
    split; [exact Hret |].
    intros ev. apply returned_is_final. exact Hret.
Qed.

(** Witness of C4 (amended): a refused connect followed by a successful
    one. *)
Lemma reconnect_attempts_bounded_and_final_witness :
  exists f,
    run no_float_of_str (start devnet_strategy)
      [ConnectRaises (Exn "OSError" "connection refused"); ConnectOk 1; SendOk] = Some f
    /\ (0 <= reconnect_attempts f <= MAX_RECONNECT_ATTEMPTS
        /\ Z.of_nat (connect_calls f) <= MAX_RECONNECT_ATTEMPTS
        /\ (forall ws f',
              step no_float_of_str f (ConnectOk ws) = Some f' ->
              reconnect_attempts f' = reconnect_attempts f)
        /\ (forall evs' f',
              run no_float_of_str f evs' = Some f' ->
              reconnect_attempts f <= reconnect_attempts f')
        /\ (reconnect_attempts f = MAX_RECONNECT_ATTEMPTS ->
            at_phase f = ReturnedFalse
            /\ forall ev, step no_float_of_str f ev = None)).
Proof.
  eexists. split; [cbv; reflexivity |].
  apply (reconnect_attempts_bounded_and_final no_float_of_str devnet_strategy
           [ConnectRaises (Exn "OSError" "connection refused"); ConnectOk 1; SendOk]).
  vm_compute. reflexivity.
Defined.

(** C5: the code at the failing input.  A frame whose price is [null]
    makes [float()] raise; the exception leaves the [async with] block,
    which closes the socket, is counted as a failed attempt, and the loop
    sleeps and connects again.  The price series is untouched. *)
Theorem null_price_frame_drops_connection :
  exists f,
    step no_float_of_str subscribed_feed (Recv (Returned null_price_frame)) = Some f
    /\ at_phase f = Connecting
    /\ reconnect_attempts f = reconnect_attempts subscribed_feed + 1
    /\ effects f
       = effects subscribed_feed
         ++ [Close;
             LogError "WebSocket error: float() argument must be a string or a real number, not 'NoneType'";
             Sleep RECONNECT_DELAY;
             Connect]
    /\ prices (self f) = prices (self subscribed_feed)
    /\ AIAgent.prices (ai_agent (self f))
       = AIAgent.prices (ai_agent (self subscribed_feed)).
Proof. eexists. split; [cbv; reflexivity |]. repeat split. Qed.

End FeedClaims.

(** What the loop does with the frames the claim C5 is right about, and with
    a price string that [float()] rejects. *)
Section FrameFacts.
Import ProfessionalTradingStrategy.
Context {num : Type} `{Arith num}.
Variable float_of_str : string -> option num.

(** [float(0)] is a float that is not above [0.0]. *)
Hypothesis zero_not_positive :
  exists z, of_int 0 = Some z /\ lt f0_0 z = false.

(** A result without a price is skipped: nothing changes. *)
Lemma missing_price_is_skipped (kv : list (string * json num)) (self : t num) :
  PyJson.lookup "price" kv = None ->
  on_message float_of_str (JDict [("result", JDict kv)]) self = (Returned tt, self).
Proof.
  intros Hmiss. destruct zero_not_positive as (z & Hz & Hlt).
  unfold on_message, Py.bind, lift_outcome. simpl. rewrite Hmiss. simpl.
  rewrite Hz, Hlt. reflexivity.
Qed.

(** A numeric price that is not above zero is skipped. *)
Lemma non_positive_price_is_skipped (kv : list (string * json num)) (x : num)
    (self : t num) :
  PyJson.lookup "price" kv = Some (JFloat x) ->
  lt f0_0 x = false ->
  on_message float_of_str (JDict [("result", JDict kv)]) self = (Returned tt, self).
Proof.
  intros Hprice Hlt.
  unfold on_message, Py.bind, lift_outcome. simpl. rewrite Hprice. simpl.
  rewrite Hlt. reflexivity.
Qed.

(** A positive numeric price is appended to both series. *)
Lemma positive_price_is_appended (kv : list (string * json num)) (x : num)
    (self : t num) :
  PyJson.lookup "price" kv = Some (JFloat x) ->
  lt f0_0 x = true ->
  exists self',
    on_message float_of_str (JDict [("result", JDict kv)]) self = (Returned tt, self')
    /\ prices self' = prices self ++ [x]
    /\ AIAgent.prices (ai_agent self') = AIAgent.prices (ai_agent self) ++ [x].
Proof.
  intros Hprice Hlt.
  unfold on_message, Py.bind, lift_outcome. simpl. rewrite Hprice. simpl.
  rewrite Hlt. eexists. split; [reflexivity |]. split; reflexivity.
Qed.

(** A price string that [float()] rejects raises ValueError out of the
    loop body, with the object unchanged. *)
Lemma unparsable_price_raises (kv : list (string * json num)) (s : string)
    (self : t num) :
  PyJson.lookup "price" kv = Some (JStr s) ->
  float_of_str s = None ->
  on_message float_of_str (JDict [("result", JDict kv)]) self
  = (Raised (Exn "ValueError" ("could not convert string to float: '" ++ s ++ "'")),
     self).
Proof.
  intros Hprice Hbad.
  unfold on_message, Py.bind, lift_outcome. simpl. rewrite Hprice. simpl.
  rewrite Hbad. reflexivity.
Qed.

(** Whatever a frame makes the body raise, the loop counts it as a failed
    connection. *)
Lemma raising_frame_is_counted (f : feed num) (data : json num) (e : exn)
    (self' : t num) :
  at_phase f = Receiving ->
  on_message float_of_str data (self f) = (Raised e, self') ->
  step float_of_str f (Recv (Returned data)) = Some (on_exception f self' e)
  /\ reconnect_attempts (on_exception f self' e) = (reconnect_attempts f + 1)%Z.
Proof.
  intros Hph Hraise. unfold step. rewrite Hph, Hraise.
  split; [reflexivity |]. unfold on_exception, loop_head.
  destruct (reconnect_attempts f + 1 <? MAX_RECONNECT_ATTEMPTS)%Z; reflexivity.
Qed.

End FrameFacts.

(** ** The claims about decisions on proposed trades *)

Section DecisionClaims.
Import ProfessionalTradingStrategy TradingSignals.

(** A trade prompt stores the proposal under the drawn id, in the strategy
    object that [generate_signals] built for itself. *)
Lemma generate_signals_stores_proposal {num : Type} `{Arith num}
    (float_of_str : string -> option num) (network : string) (mock : list num)
    (warmup rest : list (net_event num)) (uuid4 now now_end : string)
    (trade : Trade num) (conf : num) (strategy' : ProfessionalTradingStrategy.t num) :
  generate_signals float_of_str network mock warmup rest uuid4 now now_end
  = Some (Returned (trade_prompt trade conf, strategy')) ->
  pending_trades strategy' !! uuid4 = Some trade
  /\ trade_id trade = uuid4
  /\ (trade_type trade = "BUY"%string \/ trade_type trade = "SELL"%string).
Proof.
  unfold generate_signals.
  destruct (__init__ network) as [s0 | e]; [| discriminate].
  destruct (fetch_historical_data mock s0) as [[[|] | e] s1]; try discriminate.
  destruct (run float_of_str (start s1) warmup) as [task |]; [| discriminate].
  destruct (get_ai_recommendation now (self task)) as [[r | e] s2]; [| discriminate].
  destruct (action r) eqn:Hact.
  - intros Heq. injection Heq as <- <- <-. simpl.
    rewrite lookup_insert_eq. auto.
  - intros Heq. injection Heq as <- <- <-. simpl.
    rewrite lookup_insert_eq. auto.
  - destruct (run float_of_str _ rest) as [done |]; [| discriminate].
    destruct (at_phase done); discriminate.
Qed.

(** C6, as stated, fails: a skip decision on an id that is in no mapping
    is answered with a trade_skipped record and no error, and so is the
    same decision made a second time. *)
Lemma unknown_and_repeated_decisions_are_not_rejected :
  pending_trades (strategy fresh_console) !! "no-such-trade"%string = None
  /\ exists c1 c2,
       decide "no-such-trade" false fresh_console = (Returned tt, c1)
       /\ stdout c1 = [print_trade_skipped (JStr "no-such-trade")]
       /\ error_log c1 = []
       /\ decide "no-such-trade" false c1 = (Returned tt, c2)
       /\ stdout c2 = [print_trade_skipped (JStr "no-such-trade");
                       print_trade_skipped (JStr "no-such-trade")]
       /\ error_log c2 = [].
Proof.
  split; [reflexivity |].
  do 2 eexists.
  split; [cbv; reflexivity |]. split; [reflexivity |]. split; [reflexivity |].
  split; [cbv; reflexivity |]. split; reflexivity.
Qed.

(** C6, amended.  No decision is rejected on account of its id: a skip
    decision on any id, whether it is pending, was decided before or is
    unknown, prints a trade_skipped record with that id, logs no error and
    leaves the strategy object, and with it the proposal mapping, as it
    was. *)
Theorem skip_decision_is_echoed {num : Type} `{Arith num}
    (c : console num) (id : string) :
  exists c',
    decide id false c = (Returned tt, c')
    /\ stdout c' = stdout c ++ [print_trade_skipped (JStr id)]
    /\ error_log c' = error_log c
    /\ strategy c' = strategy c
    /\ pending_trades (strategy c') = pending_trades (strategy c).
Proof.
  eexists. split; [reflexivity |]. repeat split.
Qed.

(** The same for any response dict whose decision is not ["accept"]. *)
Lemma non_accept_response_is_echoed {num : Type} `{Arith num}
    (c : console num) (kv : list (string * json num)) (decision id : json num) :
  PyJson.get (JDict kv) "decision" JNone = Returned decision ->
  is_accept decision = false ->
  PyJson.get (JDict kv) "id" JNone = Returned id ->
  main_trade_response (Returned (JDict kv)) c
  = (Returned tt,
     {| strategy := strategy c;
        stdout := stdout c ++ [print_trade_skipped id];
        error_log := error_log c |}).
Proof.
  intros Hdec Hno Hid.
  unfold main_trade_response, try_except, Py.bind, lift_outcome.
  rewrite Hdec, Hno, Hid. reflexivity.
Qed.

End DecisionClaims.

(** ** The claim about the broker boundary *)

Section BrokerClaims.
Import AlpacaClient.
Variables (value order broker : Type).
Variable submit_order : order_request value -> M broker order.

(** C10.  [place_order] returns for every input and every behaviour of
    the broker: the order when [submit_order] returns one, and [None] when
    it raises, whatever the exception; the reason only goes to standard
    output. *)
Theorem place_order_never_raises
    (symbol qty side type time_in_force : value) (self : t broker) :
  exists (r : option order) (self' : t broker),
    place_order value order broker submit_order
      symbol qty side type time_in_force self = (Returned r, self')
    /\ match submit_order {| AlpacaClient.symbol := symbol; AlpacaClient.qty := qty;
                             AlpacaClient.side := side; AlpacaClient.type := type;
                             AlpacaClient.time_in_force := time_in_force |}
                          (api broker self) with
       | (Returned o, b') =>
           r = Some o
           /\ api broker self' = b'
           /\ printed_lines broker self' = printed_lines broker self
       | (Raised e, b') =>
           r = None
           /\ api broker self' = b'
           /\ printed_lines broker self'
              = printed_lines broker self ++ [("Error placing order: " ++ exn_msg e)%string]
       end.
Proof.
  unfold place_order, try_except, Py.bind, zoom, ret, print, modify.
  destruct (submit_order _ (api broker self)) as [[o | e] b'].
  - do 2 eexists. split; [reflexivity |]. repeat split.
  - do 2 eexists. split; [reflexivity |]. repeat split.
Qed.

End BrokerClaims.

(** * More about the indicator engine *)

Section ListFacts.
Context {A : Type}.

Lemma last_n_app (n : nat) (l1 l2 : list A) :
  (n <= List.length l2)%nat -> last_n n (l1 ++ l2) = last_n n l2.
Proof.
  intros Hn. unfold last_n. rewrite length_app.
  rewrite skipn_app.
  replace (List.length l1 + List.length l2 - n - List.length l1)%nat
    with (List.length l2 - n)%nat by lia.
  rewrite skipn_all2 by lia. reflexivity.
Qed.

Lemma last_n_split (n : nat) (l : list A) :
  l = firstn (List.length l - n) l ++ last_n n l.
Proof. unfold last_n. symmetry. apply firstn_skipn. Qed.

Lemma last_n_last_n (n m : nat) (l : list A) :
  (n <= m <= List.length l)%nat -> last_n n (last_n m l) = last_n n l.
Proof.
  intros Hnm. rewrite (last_n_split m l) at 2.
  rewrite last_n_app; [reflexivity |].
  unfold last_n. rewrite length_skipn. lia.
Qed.

Lemma from_end_app (k : nat) (l1 l2 : list A) :
  (k < List.length l2)%nat -> from_end k (l1 ++ l2) = from_end k l2.
Proof.
  intros Hk. unfold from_end. rewrite length_app.
  destruct (Nat.ltb_spec k (List.length l1 + List.length l2)) as [_ | Hge]; [| lia].
  destruct (Nat.ltb_spec k (List.length l2)) as [_ | Hge]; [| lia].
  rewrite nth_error_app2 by lia. f_equal. lia.
Qed.

Lemma from_end_last_n (k n : nat) (l : list A) :
  (k < n <= List.length l)%nat -> from_end k (last_n n l) = from_end k l.
Proof.
  intros Hk. rewrite (last_n_split n l) at 2.
  rewrite from_end_app; [reflexivity |].
  unfold last_n. rewrite length_skipn. lia.
Qed.

Lemma last_n_all (l : list A) : last_n (List.length l) l = l.
Proof. unfold last_n. rewrite Nat.sub_diag. reflexivity. Qed.

End ListFacts.

Section EngineExtras.
Local Open Scope Q_scope.

Lemma skipn_min {A} (k : nat) (l : list A) :
  skipn (Nat.min k (List.length l)) l = skipn k l.
Proof.
  destruct (Nat.le_gt_cases k (List.length l)) as [Hle | Hgt].
  - rewrite Nat.min_l by exact Hle. reflexivity.
  - rewrite Nat.min_r by lia. rewrite !skipn_all2 by lia. reflexivity.
Qed.

(** X1.  A window that is not positive never gives [None]: window 0
    averages the whole history, and window [-k] the history without its
    first [k] prices. *)
Theorem moving_average_of_non_positive_window {num : Type} `{Arith num}
    (self : AIAgent.t num) (window : Z) :
  (window <= 0)%Z ->
  AIAgent.calculate_moving_average window self
  = (Returned (Some (np_mean (skipn (Z.to_nat (- window)) (AIAgent.prices self)))), self)
  /\ (window = 0%Z ->
      AIAgent.calculate_moving_average window self
      = (Returned (Some (np_mean (AIAgent.prices self))), self)).
Proof.
  intros Hw.
  assert (Hgen : AIAgent.calculate_moving_average window self
                 = (Returned (Some (np_mean (skipn (Z.to_nat (- window))
                                               (AIAgent.prices self)))), self)).
  { unfold AIAgent.calculate_moving_average, Py.bind, gets, ret.
    destruct (Z.ltb_spec (len (AIAgent.prices self)) window) as [Hlt | _];
      [unfold len in Hlt; lia |].
    unfold slice_from.
    destruct (Z.ltb_spec (- window) 0) as [Hneg | _]; [lia |].
    replace (Z.to_nat (Z.min (- window) (len (AIAgent.prices self))))
      with (Nat.min (Z.to_nat (- window)) (List.length (AIAgent.prices self)))
      by (unfold len; lia).
    rewrite skipn_min. reflexivity. }
  split; [exact Hgen |].
  intros ->. exact Hgen.
Qed.

Lemma moving_average_of_non_positive_window_witness :
  (0 <= 0)%Z
  /\ (AIAgent.calculate_moving_average 0 scenario_engine
      = (Returned (Some (np_mean (skipn (Z.to_nat (- 0)) (AIAgent.prices scenario_engine)))),
         scenario_engine)
      /\ (0%Z = 0%Z ->
          AIAgent.calculate_moving_average 0 scenario_engine
          = (Returned (Some (np_mean (AIAgent.prices scenario_engine))), scenario_engine))).
Proof.
  split; [lia |].
  apply (moving_average_of_non_positive_window scenario_engine 0). lia.
Defined.

(** X3.  Feeding prices one by one appends them in order and leaves both
    windows alone. *)
Theorem add_prices_appends {num : Type} (ps : list num) (self : AIAgent.t num) :
  AIAgent.prices (add_prices ps self) = AIAgent.prices self ++ ps
  /\ AIAgent.short_window (add_prices ps self) = AIAgent.short_window self
  /\ AIAgent.long_window (add_prices ps self) = AIAgent.long_window self.
Proof.
  unfold add_prices. revert self.
  induction ps as [| p ps IH]; intros self; cbn [fold_left].
  - rewrite app_nil_r. repeat split.
  - destruct (IH (snd (AIAgent.add_price p self))) as (Hp & Hs & Hl).
    rewrite Hp, Hs, Hl. simpl. rewrite <- app_assoc. repeat split.
Qed.

(** X7.  When the history is as long as [long_window] asks but holds fewer
    than two prices, which takes a [long_window] of at most 1,
    [get_recommendation] raises IndexError and leaves the engine alone. *)
Theorem too_short_for_last_two_raises {num : Type} `{Arith num}
    (self : AIAgent.t num) (now : string) :
  (AIAgent.long_window self <= len (AIAgent.prices self))%Z ->
  (len (AIAgent.prices self) < 2)%Z ->
  AIAgent.get_recommendation now self
  = (Raised (Exn "IndexError" "list index out of range"), self).
Proof.
  intros Hlw Hfew. destruct self as [sw lw ps]. simpl in *.
  unfold AIAgent.get_recommendation, Py.bind at 1 2, gets at 1 2. simpl.
  destruct (Z.ltb_spec (len ps) lw) as [Hlt | _]; [lia |].
  destruct ps as [| x [| y l]].
  - reflexivity.
  - reflexivity.
  - unfold len in Hfew. simpl in Hfew. lia.
Qed.

Lemma too_short_for_last_two_raises_witness :
  let self := {| AIAgent.short_window := 1; AIAgent.long_window := 1;
                 AIAgent.prices := [1.0] |} in
  (AIAgent.long_window self <= len (AIAgent.prices self))%Z
  /\ (len (AIAgent.prices self) < 2)%Z
  /\ AIAgent.get_recommendation "t1" self
     = (Raised (Exn "IndexError" "list index out of range"), self).
Proof.
  intros self. split; [unfold len; simpl; lia |]. split; [unfold len; simpl; lia |].
  apply (too_short_for_last_two_raises self "t1"); unfold len; simpl; lia.
Defined.

(** X8.  When the history fills [long_window] and holds two prices but not
    [short_window] of them, [get_recommendation] answers hold with confidence
    0.0 and the reasoning "Error calculating moving averages". *)
Theorem short_window_beyond_history_holds {num : Type} `{Arith num}
    (self : AIAgent.t num) (now : string) :
  (AIAgent.long_window self <= len (AIAgent.prices self))%Z ->
  (2 <= len (AIAgent.prices self))%Z ->
  (len (AIAgent.prices self) < AIAgent.short_window self)%Z ->
  AIAgent.get_recommendation now self
  = (Returned {| action := hold;
                 reasoning := "Error calculating moving averages";
                 entry_price := None;
                 take_profit := None;
                 confidence := f0_0;
                 timestamp := now |}, self).
Proof.
  intros Hlw Htwo Hsw.
  destruct (from_end_is_Some (AIAgent.prices self) 0) as [cur Hcur];
    [unfold len in Htwo; lia |].
  destruct (from_end_is_Some (AIAgent.prices self) 1) as [prev Hprev];
    [unfold len in Htwo; lia |].
  assert (Hlast : getitem (AIAgent.prices self) (-1) = Returned cur)
    by exact (getitem_from_end _ 0%nat _ Hcur).
  assert (Hbefore : getitem (AIAgent.prices self) (-2) = Returned prev)
    by exact (getitem_from_end _ 1%nat _ Hprev).
  unfold AIAgent.get_recommendation, Py.bind at 1 2, gets at 1 2.
  destruct (Z.ltb_spec (len (AIAgent.prices self)) (AIAgent.long_window self))
    as [Hlt | _]; [lia |].
  unfold Py.bind at 1 2, gets at 1, lift_outcome at 1. rewrite Hlast.
  unfold Py.bind at 1 2, gets at 1, lift_outcome at 1. rewrite Hbefore.
  unfold Py.bind at 1 2, gets at 1.
  unfold AIAgent.calculate_moving_average at 1, Py.bind at 1, gets at 1.
  destruct (Z.ltb_spec (len (AIAgent.prices self)) (AIAgent.short_window self))
    as [_ | Hge]; [| lia].
  unfold ret at 1. unfold Py.bind at 1 2, gets at 1.
  unfold AIAgent.calculate_moving_average, Py.bind, gets.
  destruct (len (AIAgent.prices self) <? AIAgent.long_window self)%Z; reflexivity.
Qed.

Lemma short_window_beyond_history_holds_witness :
  let self := {| AIAgent.short_window := 5; AIAgent.long_window := 2;
                 AIAgent.prices := [10.0; 1.0; 2.0] |} in
  (AIAgent.long_window self <= len (AIAgent.prices self))%Z
  /\ (2 <= len (AIAgent.prices self))%Z
  /\ (len (AIAgent.prices self) < AIAgent.short_window self)%Z
  /\ AIAgent.get_recommendation "t3" self
     = (Returned {| action := hold;
                    reasoning := "Error calculating moving averages";
                    entry_price := None;
                    take_profit := None;
                    confidence := 0.0;
                    timestamp := "t3" |}, self).
Proof.
  intros self.
  split; [unfold len; simpl; lia |]. split; [unfold len; simpl; lia |].
  split; [unfold len; simpl; lia |].
  refine (short_window_beyond_history_holds self "t3" _ _ _);
    unfold len; simpl; lia.
Defined.

Lemma get_recommendation_enough_eq {num : Type} `{Arith num}
    (self : AIAgent.t num) (now : string) (cur prev : num) :
  (0 < AIAgent.short_window self <= len (AIAgent.prices self))%Z ->
  (0 < AIAgent.long_window self <= len (AIAgent.prices self))%Z ->
  from_end 0 (AIAgent.prices self) = Some cur ->
  from_end 1 (AIAgent.prices self) = Some prev ->
  AIAgent.get_recommendation now self
  = (Returned
       (recommendation_of now cur prev
          (np_mean (last_n (Z.to_nat (AIAgent.short_window self)) (AIAgent.prices self)))
          (np_mean (last_n (Z.to_nat (AIAgent.long_window self)) (AIAgent.prices self)))),
     self).
Proof.
  intros Hsw Hlw Hcur Hprev.
  assert (Hlast : getitem (AIAgent.prices self) (-1) = Returned cur)
    by exact (getitem_from_end _ 0%nat _ Hcur).
  assert (Hbefore : getitem (AIAgent.prices self) (-2) = Returned prev)
    by exact (getitem_from_end _ 1%nat _ Hprev).
  unfold AIAgent.get_recommendation, Py.bind at 1 2, gets at 1 2.
  destruct (Z.ltb_spec (len (AIAgent.prices self)) (AIAgent.long_window self))
    as [Hlt | _]; [lia |].
  unfold Py.bind at 1 2, gets at 1, lift_outcome at 1. rewrite Hlast.
  unfold Py.bind at 1 2, gets at 1, lift_outcome at 1. rewrite Hbefore.
  unfold Py.bind at 1 2, gets at 1.
  rewrite (calculate_moving_average_enough self _ Hsw).
  unfold Py.bind at 1 2, gets at 1.
  rewrite (calculate_moving_average_enough self _ Hlw).
  unfold recommendation_of, ret.
  set (sm := np_mean (last_n (Z.to_nat (AIAgent.short_window self)) _)).
  set (lm := np_mean (last_n (Z.to_nat (AIAgent.long_window self)) _)).
  destruct (lt lm sm && lt prev cur); [reflexivity |].
  destruct (lt sm lm && lt cur prev); reflexivity.
Qed.

(** X9.  With valid windows and a history that fills the long window, the
    answer depends on the last [long_window] prices only: an engine that
    kept nothing else answers the same. *)
Theorem recommendation_depends_on_long_window_only {num : Type} `{Arith num}
    (short_window long_window : Z) (ps : list num) (now : string) :
  (0 < short_window < long_window)%Z ->
  (long_window <= len ps)%Z ->
  fst (AIAgent.get_recommendation now
         {| AIAgent.short_window := short_window;
            AIAgent.long_window := long_window;
            AIAgent.prices := ps |})
  = fst (AIAgent.get_recommendation now
           {| AIAgent.short_window := short_window;
              AIAgent.long_window := long_window;
              AIAgent.prices := last_n (Z.to_nat long_window) ps |}).
Proof.
  intros Hwin Hlen. unfold len in Hlen.
  set (W := last_n (Z.to_nat long_window) ps).
  assert (HW : List.length W = Z.to_nat long_window)
    by (apply last_n_length; lia).
  destruct (from_end_is_Some ps 0) as [cur Hcur]; [lia |].
  destruct (from_end_is_Some ps 1) as [prev Hprev]; [lia |].
  assert (E1 : last_n (Z.to_nat short_window) W = last_n (Z.to_nat short_window) ps)
    by (apply last_n_last_n; lia).
  assert (E2 : last_n (Z.to_nat long_window) W = W)
    by (rewrite <- HW; apply last_n_all).
  rewrite (get_recommendation_enough_eq _ now cur prev);
    cbn [AIAgent.prices AIAgent.short_window AIAgent.long_window];
    try assumption; try (unfold len; lia).
  rewrite (get_recommendation_enough_eq _ now cur prev);
    cbn [AIAgent.prices AIAgent.short_window AIAgent.long_window].
  - rewrite E1, E2. reflexivity.
  - unfold len. lia.
  - unfold len. lia.
  - unfold W. rewrite from_end_last_n by lia. exact Hcur.
  - unfold W. rewrite from_end_last_n by lia. exact Hprev.
Qed.

Lemma recommendation_depends_on_long_window_only_witness :
  (0 < 2 < 4)%Z /\ (4 <= len scenario_ticks)%Z
  /\ fst (AIAgent.get_recommendation "t6"
            {| AIAgent.short_window := 2; AIAgent.long_window := 4;
               AIAgent.prices := scenario_ticks |})
     = fst (AIAgent.get_recommendation "t6"
              {| AIAgent.short_window := 2; AIAgent.long_window := 4;
                 AIAgent.prices := last_n (Z.to_nat 4) scenario_ticks |}).
Proof.
  split; [lia |]. split; [unfold len; simpl; lia |].
  apply (recommendation_depends_on_long_window_only 2 4 scenario_ticks "t6").
  - lia.
  - unfold len. simpl. lia.
Defined.

Lemma clamp_shape {num : Type} `{Arith num} (x : num) :
  confidence_shape (Py.min lt f0_95 (Py.max lt f0_5 x)).
Proof.
  unfold confidence_shape, Py.min, Py.max.
  destruct (lt f0_5 x) eqn:Hlo.
  - destruct (lt x f0_95) eqn:Hhi; auto.
  - destruct (lt f0_5 f0_95); auto.
Qed.

(** X10.  With valid windows [get_recommendation] returns for every
    history, whatever the prices are: the timestamp is the clock reading,
    the confidence is 0.0, 0.5, 0.95 or strictly between the last two, hold
    carries no prices, and buy and sell carry the last price as entry
    price. *)
Theorem valid_engine_always_answers {num : Type} `{Arith num}
    (self : AIAgent.t num) (now : string) :
  (0 < AIAgent.short_window self < AIAgent.long_window self)%Z ->
  exists r,
    AIAgent.get_recommendation now self = (Returned r, self)
    /\ timestamp r = now
    /\ confidence_shape (confidence r)
    /\ (action r = hold -> entry_price r = None /\ take_profit r = None)
    /\ (action r <> hold ->
        exists p, from_end 0 (AIAgent.prices self) = Some p
                  /\ entry_price r = Some p).
Proof.
  intros Hwin.
  destruct (Z.ltb_spec (len (AIAgent.prices self)) (AIAgent.long_window self))
    as [Hshort | Hlong].
  - eexists. split.
    + unfold AIAgent.get_recommendation, Py.bind, gets.
      apply Z.ltb_lt in Hshort. rewrite Hshort. reflexivity.
    + simpl. split; [reflexivity |]. split; [left; reflexivity |].
      split; [auto | congruence].
  - assert (Hn : (2 <= List.length (AIAgent.prices self))%nat)
      by (unfold len in Hlong; lia).
    destruct (from_end_is_Some (AIAgent.prices self) 0) as [cur Hcur]; [lia |].
    destruct (from_end_is_Some (AIAgent.prices self) 1) as [prev Hprev]; [lia |].
    eexists. split.
    + apply (get_recommendation_enough_eq self now cur prev);
        try assumption; lia.
    + unfold recommendation_of.
      destruct (lt _ _ && lt prev cur); [| destruct (lt _ _ && lt cur prev)]; simpl;
        (split; [reflexivity |]); (split; [apply clamp_shape |]);
        (split; [try discriminate; auto |]);
        try (intros _; exists cur; split; [exact Hcur | reflexivity]);
        congruence.
Qed.

Lemma valid_engine_always_answers_witness :
  (0 < AIAgent.short_window scenario_engine < AIAgent.long_window scenario_engine)%Z
  /\ exists r,
       AIAgent.get_recommendation "t6" scenario_engine = (Returned r, scenario_engine)
       /\ timestamp r = "t6"%string
       /\ confidence_shape (confidence r)
       /\ (action r = hold -> entry_price r = None /\ take_profit r = None)
       /\ (action r <> hold ->
           exists p, from_end 0 (AIAgent.prices scenario_engine) = Some p
                     /\ entry_price r = Some p).
Proof.
  split; [simpl; lia |].
  apply (valid_engine_always_answers scenario_engine "t6"). simpl. lia.
Defined.

End EngineExtras.

(** * More about the feed loop *)

Section FeedExtras.
Import ProfessionalTradingStrategy.
Context {num : Type} `{Arith num}.
Variable float_of_str : string -> option num.

Lemma grown_refl (s : t num) : grown s s [].
Proof. unfold grown. rewrite !app_nil_r. repeat split. Qed.

Lemma grown_trans (s1 s2 s3 : t num) (ticks ticks' : list num) :
  grown s1 s2 ticks -> grown s2 s3 ticks' -> grown s1 s3 (ticks ++ ticks').
Proof.
  unfold grown. intros (P1 & A1 & S1 & L1 & T1 & N1) (P2 & A2 & S2 & L2 & T2 & N2).
  rewrite P2, P1, A2, A1, S2, S1, L2, L1, T2, T1, N2, N1, !app_assoc.
  repeat split.
Qed.

Lemma grown_set_websocket (s : t num) (ws : option nat) :
  grown s (set_websocket ws s) [].
Proof. unfold grown. simpl. rewrite !app_nil_r. repeat split. Qed.

(** The backfill loop: every mock price goes to the agent, in order. *)
Lemma backfill_loop (mock : list num) (m : M (t num) unit) (s s1 : t num) :
  m s = (Returned tt, s1) ->
  fold_left (fun acc price =>
               Py.bind acc (fun _ => zoom ai_agent set_ai_agent (AIAgent.add_price price)))
            mock m s
  = (Returned tt,
     set_ai_agent
       {| AIAgent.short_window := AIAgent.short_window (ai_agent s1);
          AIAgent.long_window := AIAgent.long_window (ai_agent s1);
          AIAgent.prices := AIAgent.prices (ai_agent s1) ++ mock |} s1).
Proof.
  revert m s1. induction mock as [| p mock IH]; intros m s1 Hm; simpl.
  - rewrite Hm, app_nil_r. destruct s1 as [n ps pt [sw lw aps] ws]. reflexivity.
  - rewrite (IH _ (snd (zoom ai_agent set_ai_agent (AIAgent.add_price p) s1))).
    + simpl. rewrite <- app_assoc. reflexivity.
    + unfold Py.bind. rewrite Hm. reflexivity.
Qed.

(** X11.  The backfill never fails; it replaces the strategy's own price
    list by the mock prices and appends them to the agent's list, and it
    touches nothing else. *)
Theorem fetch_historical_data_loads_both (mock : list num) (s : t num) :
  exists s',
    fetch_historical_data mock s = (Returned true, s')
    /\ prices s' = mock
    /\ AIAgent.prices (ai_agent s') = AIAgent.prices (ai_agent s) ++ mock
    /\ AIAgent.short_window (ai_agent s') = AIAgent.short_window (ai_agent s)
    /\ AIAgent.long_window (ai_agent s') = AIAgent.long_window (ai_agent s)
    /\ pending_trades s' = pending_trades s
    /\ network s' = network s
    /\ websocket s' = websocket s.
Proof.
  eexists. split.
  - unfold fetch_historical_data, try_except, Py.bind at 1 2.
    unfold modify at 1.
    rewrite (backfill_loop mock (ret tt) (set_prices mock s) (set_prices mock s) eq_refl).
    reflexivity.
  - simpl. repeat split.
Qed.

(** What one frame does to the object, whether its handling returns or
    raises: at most one price is appended, to both lists, and it is
    positive. *)
Lemma on_message_grows (data : json num) (s : t num) :
  exists ticks,
    grown s (snd (on_message float_of_str data s)) ticks
    /\ Forall (fun p => lt f0_0 p = true) ticks.
Proof.
  unfold on_message, Py.bind, lift_outcome.
  destruct (PyJson.contains "result" data) as [[|] | e];
    try (exists []; split; [apply grown_refl | constructor]).
  destruct (PyJson.subscript data "result") as [result | e];
    try (exists []; split; [apply grown_refl | constructor]).
  destruct (PyJson.is_dict result);
    try (exists []; split; [apply grown_refl | constructor]).
  destruct (PyJson.get result "price" (JInt 0)) as [v | e];
    try (exists []; split; [apply grown_refl | constructor]).
  destruct (PyJson.float float_of_str v) as [price | e];
    try (exists []; split; [apply grown_refl | constructor]).
  destruct (lt f0_0 price) eqn:Hpos;
    try (exists []; split; [apply grown_refl | constructor]).
  exists [price]. split.
  - unfold grown. simpl. repeat split.
  - constructor; [exact Hpos | constructor].
Qed.

Lemma loop_head_self_eq (s : t num) (n : Z) (effs : list effect) :
  self (loop_head s n effs) = s.
Proof. unfold loop_head. destruct (n <? MAX_RECONNECT_ATTEMPTS)%Z; reflexivity. Qed.

Lemma step_grows (f f' : feed num) (ev : net_event num) :
  step float_of_str f ev = Some f' ->
  exists ticks,
    grown (self f) (self f') ticks /\ Forall (fun p => lt f0_0 p = true) ticks.
Proof.
  unfold step, on_exception.
  destruct (at_phase f), ev as [ws | e | | e | [data | e] | e];
    try discriminate; intros Hstep;
    try (injection Hstep as <-; rewrite ?loop_head_self_eq;
         exists []; split; [first [apply grown_refl | apply grown_set_websocket]
                           | constructor]).
  pose proof (on_message_grows data (self f)) as Hmsg.
  destruct (on_message float_of_str data (self f)) as [[[] | e] s'];
    injection Hstep as <-; rewrite ?loop_head_self_eq; exact Hmsg.
Qed.

Lemma run_grows (evs : list (net_event num)) (f f' : feed num) :
  run float_of_str f evs = Some f' ->
  exists ticks,
    grown (self f) (self f') ticks /\ Forall (fun p => lt f0_0 p = true) ticks.
Proof.
  revert f. induction evs as [| ev rest IH]; intros f Hrun; simpl in Hrun.
  - injection Hrun as <-. exists []. split; [apply grown_refl | constructor].
  - destruct (step float_of_str f ev) as [f1 |] eqn:Hstep; [| discriminate].
    destruct (step_grows f f1 ev Hstep) as (t1 & G1 & P1).
    destruct (IH f1 Hrun) as (t2 & G2 & P2).
    exists (t1 ++ t2). split; [exact (grown_trans _ _ _ _ _ G1 G2) |].
    apply Forall_app. split; assumption.
Qed.

(** X12.  Whatever the network sends, the feed loop only ever appends
    positive prices, the same ones to the strategy's list and to the
    agent's, and leaves the windows, the proposals and the network name
    alone; lists that agree before the loop agree at every await. *)
Theorem feed_only_appends_positive_ticks
    (s : t num) (evs : list (net_event num)) (f : feed num) :
  run float_of_str (start s) evs = Some f ->
  exists ticks,
    grown s (self f) ticks
    /\ Forall (fun p => lt f0_0 p = true) ticks
    /\ (prices s = AIAgent.prices (ai_agent s) ->
        prices (self f) = AIAgent.prices (ai_agent (self f))).
Proof.
  intros Hrun.
  destruct (run_grows evs (start s) f Hrun) as (ticks & Hg & Hpos).
  unfold start in Hg. rewrite loop_head_self_eq in Hg.
  exists ticks. split; [exact Hg |]. split; [exact Hpos |].
  destruct Hg as (P & A & _). intros Heq. rewrite P, A, Heq. reflexivity.
Qed.

(** X13.  A frame that is a JSON object without a ["result"] key, or whose
    ["result"] is not an object, is ignored: nothing changes and nothing is
    raised. *)
Theorem frame_without_result_dict_is_ignored
    (kv : list (string * json num)) (s : t num) :
  (PyJson.lookup "result" kv = None
   \/ exists v, PyJson.lookup "result" kv = Some v /\ PyJson.is_dict v = false) ->
  on_message float_of_str (JDict kv) s = (Returned tt, s).
Proof.
  intros [Hnone | (v & Hv & Hnd)];
    unfold on_message, Py.bind, lift_outcome; simpl.
  - rewrite Hnone. reflexivity.
  - rewrite Hv, Hnd. reflexivity.
Qed.

(** X14.  A frame that is [null], a boolean or a number makes the
    membership test raise TypeError; on an open connection this closes the
    socket and counts as a failed attempt, with the object unchanged. *)
Theorem scalar_frame_costs_an_attempt (f : feed num) (data : json num) :
  at_phase f = Receiving ->
  is_scalar data = true ->
  let e := Exn "TypeError"
             ("argument of type '" ++ PyJson.type_name data ++ "' is not iterable") in
  on_message float_of_str data (self f) = (Raised e, self f)
  /\ step float_of_str f (Recv (Returned data)) = Some (on_exception f (self f) e)
  /\ reconnect_attempts (on_exception f (self f) e) = (reconnect_attempts f + 1)%Z
  /\ self (on_exception f (self f) e) = self f.
Proof.
  intros Hph Hsc e.
  assert (Hraise : on_message float_of_str data (self f) = (Raised e, self f))
    by (destruct data; try discriminate Hsc; reflexivity).
  split; [exact Hraise |]. split; [| split].
  - unfold step. rewrite Hph, Hraise. reflexivity.
  - apply on_exception_attempts.
  - unfold on_exception. apply loop_head_self_eq.
Qed.

Lemma sleep_total_app (effs effs' : list effect) :
  sleep_total (effs ++ effs') = (sleep_total effs + sleep_total effs')%Z.
Proof.
  induction effs as [| e effs IH]; simpl; [reflexivity |].
  destruct e; rewrite IH; lia.
Qed.

Lemma loop_head_effects (s : t num) (n : Z) (effs : list effect) :
  sleep_total (effects (loop_head s n effs)) = sleep_total effs.
Proof.
  unfold loop_head. destruct (n <? MAX_RECONNECT_ATTEMPTS)%Z; simpl;
    rewrite sleep_total_app; simpl; lia.
Qed.

Lemma step_sleeps (f f' : feed num) (ev : net_event num) :
  step float_of_str f ev = Some f' ->
  (sleep_total (effects f') - RECONNECT_DELAY * reconnect_attempts f'
   = sleep_total (effects f) - RECONNECT_DELAY * reconnect_attempts f)%Z.
Proof.
  assert (Hexn : forall s' e,
             (sleep_total (effects (on_exception f s' e))
              - RECONNECT_DELAY * reconnect_attempts (on_exception f s' e)
              = sleep_total (effects f) - RECONNECT_DELAY * reconnect_attempts f)%Z).
  { intros s' e. rewrite on_exception_attempts. unfold on_exception.
    rewrite loop_head_effects, !sleep_total_app.
    destruct (at_phase f); simpl; lia. }
  unfold step.
  destruct (at_phase f), ev as [ws | e | | e | [data | e] | e];
    try discriminate; intros Hstep;
    try (injection Hstep as <-; first [apply Hexn | simpl; rewrite ?sleep_total_app; simpl; lia]).
  destruct (on_message float_of_str data (self f)) as [[[] | e] s'];
    injection Hstep as <-; [simpl; lia | apply Hexn].
Qed.

(** X15.  Every failure is followed by one sleep of [RECONNECT_DELAY]
    seconds and nothing else sleeps: whenever the loop waits for the
    network (to connect, to send the subscription or to receive a frame)
    or has returned, the sleeps it has asked for add up to
    [RECONNECT_DELAY] times the number of failed attempts.  (While it
    sleeps, the failure is counted and the sleep not yet over; the states
    here are those between sleeps.) *)
Theorem feed_sleeps_once_per_failure
    (s : t num) (evs : list (net_event num)) (f : feed num) :
  run float_of_str (start s) evs = Some f ->
  sleep_total (effects f) = (RECONNECT_DELAY * reconnect_attempts f)%Z.
Proof.
  intros Hrun.
  assert (Hgen : forall evs g g',
             run float_of_str g evs = Some g' ->
             (sleep_total (effects g') - RECONNECT_DELAY * reconnect_attempts g'
              = sleep_total (effects g) - RECONNECT_DELAY * reconnect_attempts g)%Z).
  { clear. intros evs. induction evs as [| ev rest IH]; intros g g' Hrun; simpl in Hrun.
    - injection Hrun as <-. reflexivity.
    - destruct (step float_of_str g ev) as [g1 |] eqn:Hstep; [| discriminate].
      rewrite (IH g1 g' Hrun). apply (step_sleeps g g1 ev Hstep). }
  specialize (Hgen evs (start s) f Hrun).
  unfold start in Hgen. rewrite loop_head_effects, loop_head_attempts in Hgen.
  simpl in Hgen. lia.
Qed.

End FeedExtras.

Section FeedExtrasWitnesses.
Import ProfessionalTradingStrategy.

Lemma feed_only_appends_positive_ticks_witness :
  exists f,
    run no_float_of_str (start devnet_strategy) one_tick_session = Some f
    /\ exists ticks,
         grown devnet_strategy (self f) ticks
         /\ Forall (fun p => lt f0_0 p = true) ticks
         /\ (prices devnet_strategy = AIAgent.prices (ai_agent devnet_strategy) ->
             prices (self f) = AIAgent.prices (ai_agent (self f))).
Proof.
  eexists. split; [cbv; reflexivity |].
  apply (feed_only_appends_positive_ticks no_float_of_str devnet_strategy one_tick_session).
  vm_compute. reflexivity.
Defined.

Lemma frame_without_result_dict_is_ignored_witness :
  (PyJson.lookup (num := Q) "result" [("id", JInt 1)] = None
   \/ exists v : json Q,
        PyJson.lookup "result" [("id", JInt 1)] = Some v /\ PyJson.is_dict v = false)
  /\ on_message no_float_of_str (JDict [("id", JInt 1)]) devnet_strategy
     = (Returned tt, devnet_strategy).
Proof.
  assert (Hmiss : PyJson.lookup (num := Q) "result" [("id", JInt 1)] = None)
    by reflexivity.
  split; [left; exact Hmiss |].
  apply (frame_without_result_dict_is_ignored no_float_of_str
           [("id", JInt 1)] devnet_strategy).
  left. exact Hmiss.
Defined.

Lemma scalar_frame_costs_an_attempt_witness :
  at_phase subscribed_feed = Receiving
  /\ is_scalar (JInt 42 : json Q) = true
  /\ (let e := Exn "TypeError"
                 ("argument of type '" ++ PyJson.type_name (JInt 42 : json Q)
                  ++ "' is not iterable") in
      on_message no_float_of_str (JInt 42) (self subscribed_feed)
      = (Raised e, self subscribed_feed)
      /\ step no_float_of_str subscribed_feed (Recv (Returned (JInt 42)))
         = Some (on_exception subscribed_feed (self subscribed_feed) e)
      /\ reconnect_attempts (on_exception subscribed_feed (self subscribed_feed) e)
         = (reconnect_attempts subscribed_feed + 1)%Z
      /\ self (on_exception subscribed_feed (self subscribed_feed) e)
         = self subscribed_feed).
Proof.
  split; [reflexivity |]. split; [reflexivity |].
  apply (scalar_frame_costs_an_attempt no_float_of_str subscribed_feed (JInt 42));
    reflexivity.
Defined.

Lemma feed_sleeps_once_per_failure_witness :
  exists f,
    run no_float_of_str (start devnet_strategy) (refused 2) = Some f
    /\ sleep_total (effects f) = (RECONNECT_DELAY * reconnect_attempts f)%Z.
Proof.
  eexists. split; [cbv; reflexivity |].
  apply (feed_sleeps_once_per_failure no_float_of_str devnet_strategy (refused 2)).
  vm_compute. reflexivity.
Defined.

End FeedExtrasWitnesses.

(** * More about the signal cycle and the console *)

Section CycleExtras.
Import ProfessionalTradingStrategy TradingSignals.
Context {num : Type} `{Arith num}.
Variable float_of_str : string -> option num.

Lemma run_app (evs evs' : list (net_event num)) (f : feed num) :
  run float_of_str f (evs ++ evs')
  = match run float_of_str f evs with
    | Some f' => run float_of_str f' evs'
    | None => None
    end.
Proof.
  revert f. induction evs as [| ev rest IH]; intros f; simpl; [reflexivity |].
  destruct (step float_of_str f ev) as [f1 |]; [apply IH | reflexivity].
Qed.

Lemma fetch_historical_data_eq (mock : list num) (s : t num) :
  fetch_historical_data mock s
  = (Returned true,
     set_ai_agent
       {| AIAgent.short_window := AIAgent.short_window (ai_agent s);
          AIAgent.long_window := AIAgent.long_window (ai_agent s);
          AIAgent.prices := AIAgent.prices (ai_agent s) ++ mock |}
       (set_prices mock s)).
Proof.
  unfold fetch_historical_data, try_except, Py.bind at 1 2. unfold modify at 1.
  rewrite (backfill_loop mock (ret tt) (set_prices mock s) (set_prices mock s) eq_refl).
  reflexivity.
Qed.

(** What the agent of a strategy answers when its windows are valid. *)
Lemma get_ai_recommendation_valid (s : t num) (now : string) :
  (0 < AIAgent.short_window (ai_agent s) < AIAgent.long_window (ai_agent s))%Z ->
  exists r,
    get_ai_recommendation now s = (Returned r, s)
    /\ timestamp r = now
    /\ (action r = hold \/ priced r).
Proof.
  intros Hwin. unfold get_ai_recommendation, zoom.
  assert (Hagent : exists r,
             AIAgent.get_recommendation now (ai_agent s) = (Returned r, ai_agent s)
             /\ timestamp r = now /\ (action r = hold \/ priced r)).
  { destruct (Z.ltb_spec (len (AIAgent.prices (ai_agent s)))
                         (AIAgent.long_window (ai_agent s))) as [Hshort | Hlong].
    - eexists. split.
      + unfold AIAgent.get_recommendation, Py.bind, gets.
        apply Z.ltb_lt in Hshort. rewrite Hshort. reflexivity.
      + split; [reflexivity | left; reflexivity].
    - assert (Hn : (2 <= List.length (AIAgent.prices (ai_agent s)))%nat)
        by (unfold len in Hlong; lia).
      destruct (from_end_is_Some (AIAgent.prices (ai_agent s)) 0) as [cur Hcur]; [lia |].
      destruct (from_end_is_Some (AIAgent.prices (ai_agent s)) 1) as [prev Hprev]; [lia |].
      eexists. split.
      + apply (get_recommendation_enough_eq (ai_agent s) now cur prev);
          try assumption; lia.
      + unfold recommendation_of, priced.
        destruct (lt _ _ && lt prev cur); [| destruct (lt _ _ && lt cur prev)]; simpl;
          (split; [reflexivity |]).
        * right. exists cur. split; [reflexivity |]. left. split; reflexivity.
        * right. exists cur. split; [reflexivity |]. right. split; reflexivity.
        * left. reflexivity. }
  destruct Hagent as (r & Hrun & Hts & Hshape).
  exists r. rewrite Hrun. split; [| split; assumption].
  destruct s as [n ps pt ag ws]. reflexivity.
Qed.

(** The agent of the strategy a cycle works on keeps the default windows. *)
Lemma cycle_agent_windows (network : string) (mock : list num)
    (evs : list (net_event num)) (s0 s1 : t num) (task : feed num) :
  __init__ network = Returned s0 ->
  fetch_historical_data mock s0 = (Returned true, s1) ->
  run float_of_str (start s1) evs = Some task ->
  (0 < AIAgent.short_window (ai_agent (self task))
   < AIAgent.long_window (ai_agent (self task)))%Z.
Proof.
  intros Hinit Hfetch Hrun.
  injection Hinit as <-.
  rewrite fetch_historical_data_eq in Hfetch. injection Hfetch as <-.
  destruct (run_grows float_of_str evs _ task Hrun) as (ticks & Hg & _).
  unfold start in Hg. rewrite loop_head_self_eq in Hg.
  destruct Hg as (_ & _ & Hs & Hl & _). rewrite Hs, Hl. simpl.
  unfold AIAgent.default_short_window, AIAgent.default_long_window. lia.
Qed.

(** X16.  A cycle that ends in a trade prompt has stored the proposal
    under the drawn id in its own strategy object; the proposal is for 100
    units of EMB/USD, carries the clock reading and the confidence of the
    prompt, and is a BUY with take profit 1.05 times its entry price or a
    SELL with 0.95 times it. *)
Theorem trade_prompt_records_recommendation
    (network : string) (mock : list num) (warmup rest : list (net_event num))
    (uuid4 now now_end : string) (trade : Trade num) (conf : num) (strategy' : t num) :
  generate_signals float_of_str network mock warmup rest uuid4 now now_end
  = Some (Returned (trade_prompt trade conf, strategy')) ->
  pending_trades strategy' !! uuid4 = Some trade
  /\ trade_id trade = uuid4
  /\ trade_asset trade = "EMB/USD"%string
  /\ trade_quantity trade = 100%Z
  /\ trade_timestamp trade = now
  /\ trade_confidence trade = conf
  /\ exists p,
       trade_entry_price trade = Some p
       /\ ((trade_type trade = "BUY"%string
            /\ trade_take_profit trade = Some (mul p f1_05))
           \/ (trade_type trade = "SELL"%string
               /\ trade_take_profit trade = Some (mul p f0_95))).
Proof.
  unfold generate_signals.
  destruct (__init__ network) as [s0 | e] eqn:Hinit; [| discriminate].
  destruct (fetch_historical_data mock s0) as [[[|] | e] s1] eqn:Hfetch;
    try discriminate.
  destruct (run float_of_str (start s1) warmup) as [task |] eqn:Hrun; [| discriminate].
  pose proof (cycle_agent_windows network mock warmup s0 s1 task Hinit Hfetch Hrun)
    as Hwin.
  destruct (get_ai_recommendation_valid (self task) now Hwin)
    as (r & Hrec & Hts & Hshape).
  rewrite Hrec.
  destruct (action r) eqn:Hact.
  - intros Heq. injection Heq as <- <- <-. simpl.
    rewrite lookup_insert_eq.
    destruct Hshape as [Hh | (p & He & [[_ Htp] | [Hs _]])]; try congruence.
    repeat split; try assumption. exists p. simpl. auto.
  - intros Heq. injection Heq as <- <- <-. simpl.
    rewrite lookup_insert_eq.
    destruct Hshape as [Hh | (p & He & [[Hb _] | [_ Htp]])]; try congruence.
    repeat split; try assumption. exists p. simpl. auto.
  - destruct (run float_of_str _ rest) as [done |]; [| discriminate].
    destruct (at_phase done); discriminate.
Qed.

(** X17.  A cycle only ever ends in no_trade after the feed loop has
    returned [False]: the answers of the network during the warm-up and the
    wait together carried the loop through [MAX_RECONNECT_ATTEMPTS]
    failures.  The result then carries the second clock reading and the
    strategy as the loop left it. *)
Theorem no_trade_only_after_feed_gave_up
    (network : string) (mock : list num) (warmup rest : list (net_event num))
    (uuid4 now now_end : string) (msg ts : string) (strategy' : t num) :
  generate_signals float_of_str network mock warmup rest uuid4 now now_end
  = Some (Returned (no_trade msg ts, strategy')) ->
  exists s0 s1 done,
    __init__ network = Returned s0
    /\ fetch_historical_data mock s0 = (Returned true, s1)
    /\ run float_of_str (start s1) (warmup ++ rest) = Some done
    /\ at_phase done = ReturnedFalse
    /\ reconnect_attempts done = MAX_RECONNECT_ATTEMPTS
    /\ strategy' = self done
    /\ ts = now_end.
Proof.
  unfold generate_signals.
  destruct (__init__ network) as [s0 | e] eqn:Hinit; [| discriminate].
  destruct (fetch_historical_data mock s0) as [[[|] | e] s1] eqn:Hfetch;
    try discriminate.
  destruct (run float_of_str (start s1) warmup) as [task |] eqn:Hrun; [| discriminate].
  pose proof (cycle_agent_windows network mock warmup s0 s1 task Hinit Hfetch Hrun)
    as Hwin.
  destruct (get_ai_recommendation_valid (self task) now Hwin)
    as (r & Hrec & _ & _).
  rewrite Hrec.
  destruct (action r); try discriminate.
  replace {| self := self task; reconnect_attempts := reconnect_attempts task;
             at_phase := at_phase task; effects := effects task |}
    with task by (destruct task; reflexivity).
  destruct (run float_of_str task rest) as [done |] eqn:Hrest; [| discriminate].
  destruct (at_phase done) eqn:Hph; try discriminate.
  intros Heq. injection Heq as <- <- <-.
  exists s0, s1, done.
  assert (Hall : run float_of_str (start s1) (warmup ++ rest) = Some done)
    by (rewrite run_app, Hrun; exact Hrest).
  split; [first [reflexivity | exact Hinit] |].
  split; [exact Hfetch |]. split; [exact Hall |].
  split; [exact Hph |]. split; [| split; reflexivity].
  destruct (run_inv float_of_str _ _ _ (start_inv s1) Hall)
    as [[(_ & Hmax & _) | (Hsusp & _)] _]; [exact Hmax | contradiction].
Qed.

(** X18.  A cycle never raises and never ends in the error result: the
    mock backfill cannot fail and the agent it feeds has valid windows. *)
Theorem generate_signals_never_fails
    (network : string) (mock : list num) (warmup rest : list (net_event num))
    (uuid4 now now_end : string) :
  (forall e,
     generate_signals float_of_str network mock warmup rest uuid4 now now_end
     <> Some (Raised e))
  /\ (forall message timestamp s,
        generate_signals float_of_str network mock warmup rest uuid4 now now_end
        <> Some (Returned (error_signal message timestamp, s))).
Proof.
  assert (Hcases :
    match generate_signals float_of_str network mock warmup rest uuid4 now now_end with
    | Some (Raised _) => False
    | Some (Returned (error_signal _ _, _)) => False
    | _ => True
    end).
  { unfold generate_signals.
    destruct (__init__ network) as [s0 | e] eqn:Hinit; [| discriminate].
    rewrite fetch_historical_data_eq.
    destruct (run float_of_str (start _) warmup) as [task |] eqn:Hrun; [| exact I].
    pose proof (cycle_agent_windows network mock warmup s0 _ task Hinit
                  (fetch_historical_data_eq mock s0) Hrun) as Hwin.
    destruct (get_ai_recommendation_valid (self task) now Hwin) as (r & Hrec & _ & _).
    rewrite Hrec.
    destruct (action r); try exact I.
    destruct (run float_of_str _ rest) as [done |]; [| exact I].
    destruct (at_phase done); exact I. }
  split.
  - intros e Heq. rewrite Heq in Hcases. exact Hcases.
  - intros message timestamp s Heq. rewrite Heq in Hcases. exact Hcases.
Qed.

Lemma set_strategy_same (c : console num) : set_strategy (strategy c) c = c.
Proof. destruct c. reflexivity. Qed.

(** X19.  An accept decision never executes anything: [main] logs that the
    strategy has no [execute_trade], prints nothing and leaves its state as
    it was. *)
Theorem accept_decision_logs_attribute_error
    (c : console num) (kv : list (string * json num)) :
  PyJson.lookup "decision" kv = Some (JStr "accept") ->
  main_trade_response (Returned (JDict kv)) c
  = (Returned tt,
     {| strategy := strategy c;
        stdout := stdout c;
        error_log :=
          error_log c
          ++ ["Error processing trade response: 'ProfessionalTradingStrategy' object has no attribute 'execute_trade'"%string] |}).
Proof.
  intros Hacc.
  unfold main_trade_response, try_except, Py.bind, lift_outcome. simpl.
  rewrite Hacc. simpl. unfold zoom, getattr_execute_trade, raise.
  rewrite set_strategy_same. reflexivity.
Qed.

(** X20.  A response line that is not JSON, or not a JSON object, is
    logged; nothing is printed and the state is as it was. *)
Theorem malformed_response_is_logged (c : console num) (line : outcome (json num)) :
  match line with
  | Raised _ => True
  | Returned v => PyJson.is_dict v = false
  end ->
  exists msg,
    main_trade_response line c
    = (Returned tt,
       {| strategy := strategy c;
          stdout := stdout c;
          error_log :=
            error_log c ++ [("Error processing trade response: " ++ msg)%string] |})
    /\ msg = match line with
             | Raised e => exn_msg e
             | Returned v =>
                 ("'" ++ PyJson.type_name v ++ "' object has no attribute 'get'")%string
             end.
Proof.
  intros Hbad. unfold main_trade_response, try_except, Py.bind, lift_outcome.
  destruct line as [v | e].
  - destruct v; try discriminate Hbad; eexists; split; reflexivity.
  - eexists. split; reflexivity.
Qed.

(** What the inner [try] of [main] can do, for any line. *)
Lemma main_trade_response_frame (line : outcome (json num)) (c : console num) :
  exists out logs,
    main_trade_response line c
    = (Returned tt,
       {| strategy := strategy c; stdout := stdout c ++ out;
          error_log := error_log c ++ logs |})
    /\ (forall result, ~ In (print_trade_result result) out)
    /\ (List.length out + List.length logs = 1)%nat.
Proof.
  unfold main_trade_response, try_except, Py.bind, lift_outcome.
  destruct line as [response | e].
  - destruct (PyJson.get response "decision" JNone) as [decision | e].
    + destruct (is_accept decision).
      * unfold zoom, getattr_execute_trade, raise. rewrite set_strategy_same.
        eexists [], [_]. rewrite app_nil_r. split; [reflexivity |].
        split; [intros result [] | reflexivity].
      * destruct (PyJson.get response "id" JNone) as [id | e].
        -- exists [print_trade_skipped id], []. rewrite app_nil_r.
           split; [reflexivity |].
           split; [intros result [Heq | []]; discriminate | reflexivity].
        -- eexists [], [_]. rewrite app_nil_r. split; [reflexivity |].
           split; [intros result [] | reflexivity].
    + eexists [], [_]. rewrite app_nil_r. split; [reflexivity |].
      split; [intros result [] | reflexivity].
  - eexists [], [_]. rewrite app_nil_r. split; [reflexivity |].
    split; [intros result [] | reflexivity].
Qed.

(** X21.  A turn of [main] always completes: whatever the cycle returned
    or raised and whatever line was read, it only appends to what was
    printed and logged, never prints a trade result, and leaves its own
    strategy object, whose proposal mapping no cycle writes to, untouched. *)
Theorem main_iteration_completes_without_executing
    (signals : outcome (Signal num)) (line : outcome (json num)) (c : console num) :
  exists out logs,
    main_iteration signals line c
    = (Returned tt,
       {| strategy := strategy c; stdout := stdout c ++ out;
          error_log := error_log c ++ logs |})
    /\ (forall result, ~ In (print_trade_result result) out)
    /\ (match signals with
        | Returned sig => exists out', out = print_signal sig :: out'
        | Raised e => out = [] /\ logs = [("Error in main loop: " ++ exn_msg e)%string]
        end).
Proof.
  unfold main_iteration, try_except, Py.bind at 1 2, lift_outcome at 1.
  destruct signals as [sig | e].
  - unfold print at 1, modify at 1.
    assert (Hplain : exists out logs,
               (Returned tt,
                {| strategy := strategy c; stdout := stdout c ++ [print_signal sig];
                   error_log := error_log c |})
               = (Returned tt,
                  {| strategy := strategy c; stdout := stdout c ++ out;
                     error_log := error_log c ++ logs |})
               /\ (forall result, ~ In (print_trade_result result) out)
               /\ exists out', out = print_signal sig :: out').
    { exists [print_signal sig], []. rewrite app_nil_r. split; [reflexivity |].
      split; [intros result [Heq | []]; discriminate | exists []; reflexivity]. }
    destruct sig as [m t0 | trade conf | m t0]; try exact Hplain.
    clear Hplain.
    destruct (main_trade_response_frame line
                {| strategy := strategy c;
                   stdout := stdout c ++ [print_signal (trade_prompt trade conf)];
                   error_log := error_log c |}) as (out & logs & Hrun & Hno & _).
    simpl in Hrun. rewrite Hrun.
    exists (print_signal (trade_prompt trade conf) :: out), logs.
    split; [rewrite <- app_assoc; reflexivity |].
    split; [| exists out; reflexivity].
    intros result [Heq | Hin]; [discriminate | exact (Hno result Hin)].
  - exists [], [("Error in main loop: " ++ exn_msg e)%string].
    rewrite app_nil_r. split; [reflexivity |].
    split; [intros result [] | split; reflexivity].
Qed.

End CycleExtras.

Section CycleExtrasWitnesses.
Import ProfessionalTradingStrategy TradingSignals.

Lemma trade_prompt_records_recommendation_witness :
  exists (trade : Trade Q) (conf : Q) (strategy' : ProfessionalTradingStrategy.t Q),
    generate_signals no_float_of_str "devnet" (ramp 250) [] [] "id-1" "t0" "t1"
    = Some (Returned (trade_prompt trade conf, strategy'))
    /\ (pending_trades strategy' !! "id-1"%string = Some trade
        /\ trade_id trade = "id-1"%string
        /\ trade_asset trade = "EMB/USD"%string
        /\ trade_quantity trade = 100%Z
        /\ trade_timestamp trade = "t0"%string
        /\ trade_confidence trade = conf
        /\ exists p,
             trade_entry_price trade = Some p
             /\ ((trade_type trade = "BUY"%string
                  /\ trade_take_profit trade = Some (mul p f1_05))
                 \/ (trade_type trade = "SELL"%string
                     /\ trade_take_profit trade = Some (mul p f0_95)))).
Proof.
  assert (Hshape :
    match generate_signals no_float_of_str "devnet" (ramp 250) [] [] "id-1" "t0" "t1" with
    | Some (Returned (trade_prompt _ _, _)) => True
    | _ => False
    end) by (vm_compute; exact I).
  destruct (generate_signals no_float_of_str "devnet" (ramp 250) [] [] "id-1" "t0" "t1")
    as [[[[m t0 | trade conf | m t0] strategy'] | e] |] eqn:Hgen; try contradiction.
  exists trade, conf, strategy'. split; [reflexivity |].
  apply (trade_prompt_records_recommendation no_float_of_str
           "devnet" (ramp 250) [] [] "id-1" "t0" "t1" trade conf strategy' Hgen).
Defined.

Lemma no_trade_only_after_feed_gave_up_witness :
  exists (msg ts : string) (strategy' : ProfessionalTradingStrategy.t Q),
    generate_signals no_float_of_str "devnet" [] [] (refused 5) "id-1" "t0" "t1"
    = Some (Returned (no_trade msg ts, strategy'))
    /\ exists s0 s1 done,
         __init__ "devnet" = Returned s0
         /\ fetch_historical_data [] s0 = (Returned true, s1)
         /\ run no_float_of_str (start s1) ([] ++ refused 5) = Some done
         /\ at_phase done = ReturnedFalse
         /\ reconnect_attempts done = MAX_RECONNECT_ATTEMPTS
         /\ strategy' = self done
         /\ ts = "t1"%string.
Proof.
  assert (Hshape :
    match generate_signals no_float_of_str "devnet" [] [] (refused 5) "id-1" "t0" "t1" with
    | Some (Returned (no_trade _ _, _)) => True
    | _ => False
    end) by (vm_compute; exact I).
  destruct (generate_signals no_float_of_str "devnet" [] [] (refused 5) "id-1" "t0" "t1")
    as [[[[m t0 | trade conf | msg ts] strategy'] | e] |] eqn:Hgen; try contradiction.
  exists msg, ts, strategy'. split; [reflexivity |].
  apply (no_trade_only_after_feed_gave_up no_float_of_str
           "devnet" [] [] (refused 5) "id-1" "t0" "t1" msg ts strategy' Hgen).
Defined.

Lemma accept_decision_logs_attribute_error_witness :
  PyJson.lookup (num := Q) "decision" [("id", JStr "id-1"); ("decision", JStr "accept")]
  = Some (JStr "accept")
  /\ main_trade_response
       (Returned (JDict [("id", JStr "id-1"); ("decision", JStr "accept")])) fresh_console
     = (Returned tt,
        {| strategy := strategy fresh_console;
           stdout := stdout fresh_console;
           error_log :=
             error_log fresh_console
             ++ ["Error processing trade response: 'ProfessionalTradingStrategy' object has no attribute 'execute_trade'"%string] |}).
Proof.
  split; [reflexivity |].
  apply (accept_decision_logs_attribute_error fresh_console
           [("id", JStr "id-1"); ("decision", JStr "accept")]).
  reflexivity.
Defined.

Lemma malformed_response_is_logged_witness :
  PyJson.is_dict (JList [] : json Q) = false
  /\ exists msg,
       main_trade_response (Returned (JList [])) fresh_console
       = (Returned tt,
          {| strategy := strategy fresh_console;
             stdout := stdout fresh_console;
             error_log :=
               error_log fresh_console
               ++ [("Error processing trade response: " ++ msg)%string] |})
       /\ msg = ("'" ++ PyJson.type_name (JList [] : json Q)
                 ++ "' object has no attribute 'get'")%string.
Proof.
  split; [reflexivity |].
  apply (malformed_response_is_logged fresh_console (Returned (JList []))).
  reflexivity.
Defined.

End CycleExtrasWitnesses.

(** * More about the broker boundary *)

Section BrokerExtras.
Import AlpacaClient.
Variables (value order broker account position stream_handle : Type).
Variable api_get_account : M broker account.
Variable api_get_position : value -> M broker position.
Variable REST : string -> string -> string -> broker.
Variable Stream : string -> string -> string -> string -> stream_handle.

(** X22.  [get_position] returns for every symbol and every behaviour of
    the broker: the position when the broker answers, and [None] when it
    raises, the reason going to standard output only. *)
Theorem get_position_never_raises (symbol : value) (self : t broker) :
  exists (r : option position) (self' : t broker),
    get_position value broker position api_get_position symbol self
    = (Returned r, self')
    /\ match api_get_position symbol (api broker self) with
       | (Returned p, b') =>
           r = Some p
           /\ api broker self' = b'
           /\ printed_lines broker self' = printed_lines broker self
       | (Raised e, b') =>
           r = None
           /\ api broker self' = b'
           /\ printed_lines broker self'
              = printed_lines broker self
                ++ [("Error getting position: " ++ exn_msg e)%string]
       end.
Proof.
  unfold get_position, try_except, Py.bind, zoom, ret, print, modify.
  destruct (api_get_position symbol (api broker self)) as [[p | e] b'].
  - do 2 eexists. split; [reflexivity |]. repeat split.
  - do 2 eexists. split; [reflexivity |]. repeat split.
Qed.

(** X23.  Constructing a client raises ValueError exactly when one of the
    two credentials is unset or empty in the environment; otherwise the
    client holds both, talks to the paper-trading endpoint and has printed
    nothing.  Removing the key from any environment makes construction
    fail. *)
Theorem client_needs_both_credentials
    (environ : gmap string string) (stdout : list string) :
  let init := __init__ broker REST stream_handle Stream in
  let failure :=
    Raised (Exn "ValueError" "Alpaca API credentials not found in environment variables") in
  (unset (environ !! "ALPACA_API_KEY"%string)
   \/ unset (environ !! "ALPACA_API_SECRET"%string) <->
   init environ stdout = failure)
  /\ (forall inst,
        init environ stdout = Returned inst ->
        environ !! "ALPACA_API_KEY"%string = Some (api_key broker stream_handle inst)
        /\ environ !! "ALPACA_API_SECRET"%string
           = Some (api_secret broker stream_handle inst)
        /\ base_url broker stream_handle inst
           = "https://paper-api.alpaca.markets/v2"%string
        /\ api broker (client broker stream_handle inst)
           = REST (api_key broker stream_handle inst)
               (api_secret broker stream_handle inst)
               "https://paper-api.alpaca.markets/v2"
        /\ printed_lines broker (client broker stream_handle inst) = stdout)
  /\ init (delete "ALPACA_API_KEY"%string environ) stdout = failure.
Proof.
  intros init failure. subst init failure. unfold __init__, unset.
  split; [| split].
  - destruct (environ !! "ALPACA_API_KEY"%string) as [key |];
      destruct (environ !! "ALPACA_API_SECRET"%string) as [secret |].
    + destruct (String.eqb_spec key ""), (String.eqb_spec secret ""); simpl; subst;
        split; try discriminate; auto;
        intros [[? | Hk] | [? | Hs]]; try discriminate;
        try (injection Hk as ->); try (injection Hs as ->); congruence.
    + split; auto.
    + split; auto.
    + split; auto.
  - intros inst.
    destruct (environ !! "ALPACA_API_KEY"%string) as [key |];
      destruct (environ !! "ALPACA_API_SECRET"%string) as [secret |];
      try discriminate.
    destruct (String.eqb key "" || String.eqb secret ""); [discriminate |].
    intros Heq. injection Heq as <-. simpl. repeat split.
  - rewrite lookup_delete_eq. reflexivity.
Qed.

End BrokerExtras.
